(** * TxTracer-core: a shallow embedding of the retrace pipeline

    Sources: [src/src/methods.ts] (library scanner, replayer, final-data
    assembly, [computeMinLt], [calculateSentTotal]) and the runner
    ([src/unnamed/part_001]: [retrace], [retraceBaseTx], [txOpcode],
    [tryLoadAsLibrary]).

    Network requests, the sandbox executor and the @ton/core decoders are
    external collaborators: they are Section variables (pure oracles), and
    every call that reaches the network or the executor is recorded in a
    trace so that the number and order of those calls can be stated. *)

From stdpp Require Import base gmap strings list.
From Stdlib Require Import ZArith Ascii.

#[local] Set Warnings "-register-all".
Open Scope string_scope.
Open Scope list_scope.

Open Scope Z_scope.

(* ------------------------------------------------------------------ *)
(** ** Cells and slices *)

(** A cell: its data bits and its references. *)
Inductive Cell : Type :=
| mkCell (bits : list bool) (refs : list Cell).

Definition cell_bits (c : Cell) : list bool :=
  match c with mkCell b _ => b end.

(** A slice is the list of the remaining bits ([remainingBits] is its
    length). *)
Definition Slice := list bool.

(** Big-endian value of a bit string. *)
Fixpoint bits_to_Z_acc (acc : Z) (bs : list bool) : Z :=
  match bs with
  | [] => acc
  | b :: bs' => bits_to_Z_acc (2 * acc + Z.b2z b) bs'
  end.

Definition bits_to_Z (bs : list bool) : Z := bits_to_Z_acc 0 bs.

(** Bit-for-bit equality (Buffer.equals). *)
Fixpoint bits_eqb (a b : list bool) : bool :=
  match a, b with
  | [], [] => true
  | x :: a', y :: b' => Bool.eqb x y && bits_eqb a' b'
  | _, _ => false
  end.

(* ------------------------------------------------------------------ *)
(** ** Results that may throw *)

Inductive Outcome (A : Type) : Type :=
| Ok (a : A)
| Throw (msg : string).
Arguments Ok {A} a.
Arguments Throw {A} msg.

#[global] Instance outcome_ret : MRet Outcome := fun A a => Ok a.
#[global] Instance outcome_bind : MBind Outcome :=
  fun A B f o => match o with Ok a => f a | Throw m => Throw m end.

(** [slice.loadUint(n)]: throws when fewer than [n] bits remain. *)
Definition loadUint (n : nat) (s : Slice) : Outcome (Z * Slice) :=
  if Nat.ltb (length s) n then Throw "Index out of bounds"
  else Ok (bits_to_Z (firstn n s), skipn n s).

(** [slice.loadBuffer(n)]: [n] bytes, kept as their [8 n] bits. *)
Definition loadBuffer (n : nat) (s : Slice) : Outcome (list bool * Slice) :=
  if Nat.ltb (length s) (8 * n) then Throw "Index out of bounds"
  else Ok (firstn (8 * n) s, skipn (8 * n) s).

(* ------------------------------------------------------------------ *)
(** ** Effects: a trace of external calls, and exceptions *)

Inductive Event : Type :=
| EvFindBaseTx (txLink : string)
| EvRetraceBaseTx (additionalLibs : list (Z * Cell))
| EvGetLibrary (hash : Z)
| EvEmulate (lt : Z) (shardAccount : string).

Definition M (A : Type) : Type := list Event -> Outcome A * list Event.

#[global] Instance m_ret : MRet M := fun A a tr => (Ok a, tr).
#[global] Instance m_bind : MBind M :=
  fun A B f c tr =>
    match c tr with
    | (Ok a, tr') => f a tr'
    | (Throw m, tr') => (Throw m, tr')
    end.

Definition throw {A} (msg : string) : M A := fun tr => (Throw msg, tr).
Definition lift {A} (o : Outcome A) : M A := fun tr => (o, tr).
Definition emit (e : Event) : M unit := fun tr => (Ok tt, tr ++ [e]).

(** try { c } catch { h } *)
Definition catch {A} (c : M A) (h : string -> M A) : M A :=
  fun tr => match c tr with
            | (Throw m, tr') => h m tr'
            | r => r
            end.


(* ------------------------------------------------------------------ *)
(** ** Ledger records (as @ton/core decodes them) *)

Record Address := mkAddress { workChain : Z; addr_hash : Z }.
Record ExternalAddress := mkExternalAddress { ext_value : Z; ext_bits : Z }.

(** A value that is either an [Address] or an [ExternalAddress]
    ([Address.isAddress] tells them apart). *)
Inductive AnyAddress :=
| AnyAddr (a : Address)
| AnyExt (e : ExternalAddress).

Definition isAddress (a : AnyAddress) : bool :=
  match a with AnyAddr _ => true | AnyExt _ => false end.

(** [CommonMessageInfo]: only the fields the tracer reads. *)
Inductive CommonMessageInfo :=
| MsgInternal (bounced : bool) (src dest : Address) (value_coins : Z)
| MsgExternalIn (src : option ExternalAddress) (dest : Address)
| MsgExternalOut (src : Address) (dest : option ExternalAddress).

Record StateInit := mkStateInit { si_code : option Cell; si_data : option Cell }.

Record Message := mkMessage {
  info : CommonMessageInfo;
  init : option StateInit;
  body : Cell
}.

(** [info.src ?? undefined] *)
Definition info_src (i : CommonMessageInfo) : option AnyAddress :=
  match i with
  | MsgInternal _ s _ _ => Some (AnyAddr s)
  | MsgExternalIn s _ => option_map AnyExt s
  | MsgExternalOut s _ => Some (AnyAddr s)
  end.

(** [info.dest] ([undefined] for an external-out message without one) *)
Definition info_dest (i : CommonMessageInfo) : option AnyAddress :=
  match i with
  | MsgInternal _ _ d _ => Some (AnyAddr d)
  | MsgExternalIn _ d => Some (AnyAddr d)
  | MsgExternalOut _ d => option_map AnyExt d
  end.

Inductive ComputePhase :=
| ComputeSkipped (reason : string)
| ComputeVm (success : bool) (exitCode : Z) (vmSteps : Z) (gasUsed : Z) (gasFees : Z).

Record ActionPhase := mkActionPhase { resultCode : Z }.

Inductive TransactionDescription :=
| DescrGeneric (computePhase : ComputePhase) (actionPhase : option ActionPhase)
| DescrOther (type : string).

Record Transaction := mkTransaction {
  tx_lt : Z;
  tx_now : Z;
  inMessage : option Message;
  outMessages : list Message;
  totalFees_coins : Z;
  description : TransactionDescription;
  stateUpdate_newHash : list bool
}.

Inductive AccountState :=
| StateUninit
| StateActive (code : option Cell) (data : option Cell)
| StateFrozen (stateHash : Z).

Record Account := mkAccount {
  balance_coins : Z;
  state : AccountState
}.

Record ShardAccount := mkShardAccount {
  account : option Account;
  lastTransactionLt : Z;
  lastTransactionHash : Z
}.

(* ------------------------------------------------------------------ *)
(** ** [txOpcode] (runner) *)

Definition txOpcode (transaction : Transaction) : Outcome (option Z) :=
  let isBounced :=
    match inMessage transaction with
    | Some m => match info m with MsgInternal b _ _ _ => b | _ => false end
    | None => false
    end in
  match inMessage transaction with
  | None => Ok None
  | Some m =>
      let slice := cell_bits (body m) in
      slice ← (if isBounced then '(_, s) ← loadUint 32 slice; Ok s else Ok slice);
      if Nat.leb 32 (length slice)
      then '(opcode, _) ← loadUint 32 slice; Ok (Some opcode)
      else Ok None
  end.

(* ------------------------------------------------------------------ *)
(** ** [calculateSentTotal] *)

Definition calculateSentTotal (tx : Transaction) : Z :=
  fold_left (fun total msg =>
               match info msg with
               | MsgInternal _ _ _ v => total + v
               | _ => total
               end) (outMessages tx) 0.

(* ------------------------------------------------------------------ *)
(** ** [computeMinLt] *)

(** A shard summary's transaction entry; [lt] is the API's decimal
    string, kept as the value [BigInt] reads from it. *)
Record TxInBlock := mkTxInBlock { tib_lt : Z; tib_hash : string; tib_account : string }.
Record ShardInfo := mkShardInfo { shard_transactions : list TxInBlock }.
Record BlockInfo := mkBlockInfo { shards : list ShardInfo }.


(* ------------------------------------------------------------------ *)
(** ** Executor results, VM log lines and the report *)

(** [EmulationResult] of the sandbox executor. *)
Record EmulationResultSuccess := mkEmulationResultSuccess {
  res_transaction : string;   (* base64 BoC *)
  res_shardAccount : string;  (* base64 BoC *)
  res_vmLog : string;
  res_actions : option string (* base64 c5, or null *)
}.

Inductive EmuResult :=
| EmuSuccess (s : EmulationResultSuccess)
| EmuError (error : string).

Record EmulationResult := mkEmulationResult {
  result : EmuResult;
  logs : string;
  debugLogs : string
}.

Definition emu_success (r : EmulationResult) : bool :=
  match result r with EmuSuccess _ => true | EmuError _ => false end.

(** Entries of a parsed VM log (ton-assembly [logs.parse]). *)
Inductive StackEntry :=
| StackCell (boc : string)
| StackInt (value : Z)
| StackOther (text : string).

Inductive VmLine :=
| VmExceptionHandler (errno : Z)
| VmException (errno : Z) (message : string)
| VmExecute (instr : string)
| VmStack (stack : list StackEntry)
| VmLoc (text : string)
| VmUnknown (text : string).

Inductive OutAction :=
| ActSendMsg (mode : Z) (outMsg : Message)
| ActSetCode (newCode : Cell)
| ActReserve (mode : Z) (coins : Z)
| ActOther (text : string).

Inductive ComputeInfo :=
| CISkipped
| CIVm (success : bool) (exitCode : Z) (vmSteps : Z) (gasUsed : Z) (gasFees : Z).

Record TraceInMessage := mkTraceInMessage {
  sender : option AnyAddress;
  contract : AnyAddress;
  amount : option Z;
  opcode : option Z
}.

Record TraceMoneyResult := mkTraceMoneyResult {
  balanceBefore : Z;
  sentTotal : Z;
  totalFees : Z;
  balanceAfter : Z
}.

Record TraceEmulatedTx := mkTraceEmulatedTx {
  raw : string;
  utime : Z;
  et_lt : Z;
  computeInfo : ComputeInfo;
  executorLogs : string;
  actions : list OutAction;
  c5 : option Cell;
  vmLogs : string
}.

Record EmulatorVersion := mkEmulatorVersion { commitHash : string; commitDate : string }.

Record TraceResult := mkTraceResult {
  stateUpdateHashOk : bool;
  codeCell : option Cell;
  originalCodeCell : option Cell;
  inMsg : TraceInMessage;
  money : TraceMoneyResult;
  emulatedTx : TraceEmulatedTx;
  emulatorVersion : EmulatorVersion
}.

(** Chain coordinates. *)
Record BaseTxInfo := mkBaseTxInfo { base_lt : Z; base_hash : list bool; base_address : Address }.
Record RawTx := mkRawTx { rawtx_tx : Transaction; rawtx_block_rootHash : string }.
Record ShardBlock := mkShardBlock {
  root_hash : string;
  masterchain_seqno : Z;
  rand_seed : string
}.

(* ------------------------------------------------------------------ *)
(** ** The external collaborators *)

Class Env := {
  (* library providers, keyed by the 256-bit library hash *)
  getLibraryByHashToncenter : bool -> Z -> Outcome Cell;
  getLibraryByHashDton : bool -> Z -> Outcome Cell;
  (* @ton/core codecs *)
  Cell_fromHex : string -> Outcome Cell;
  Cell_fromBase64 : string -> Outcome Cell;
  loadShardAccount : string -> Outcome ShardAccount;  (* base64 BoC *)
  loadTransaction : string -> Outcome Transaction;     (* base64 BoC *)
  loadOutList : Cell -> Outcome (list OutAction);
  shardAccountToBase64 : ShardAccount -> string;
  storeTransactionHex : Transaction -> string;
  Address_toString : Address -> string;
  (* ton-assembly *)
  logs_parse : string -> list VmLine;
  (* chain data providers *)
  findBaseTxByHash : bool -> string -> Outcome (option BaseTxInfo);
  findRawTxByHash : bool -> BaseTxInfo -> Outcome (list RawTx);
  findShardBlockForTx : bool -> RawTx -> Outcome (option ShardBlock);
  findFullBlockForSeqno : bool -> Z -> Outcome BlockInfo;
  findAllTransactionsBetween : bool -> BaseTxInfo -> Z -> Outcome (list Transaction);
  getBlockConfig : bool -> BlockInfo -> Outcome string;
  getBlockAccount : bool -> Address -> BlockInfo -> Outcome ShardAccount;
  (* sandbox executor: config, libs, shard account, message, now, lt, seed *)
  executorVersion : EmulatorVersion;
  runTransaction : string -> option (gmap Z Cell) -> string -> Message -> Z -> Z ->
                   string -> Outcome EmulationResult
}.

(** Decimal rendering of a bigint in a template literal. *)
Fixpoint digits_rev (fuel : nat) (n : Z) (acc : string) : string :=
  match fuel with
  | O => acc
  | S f =>
      let acc' := String.String (Ascii.ascii_of_nat (48 + Z.to_nat (n mod 10))) acc in
      if n <? 10 then acc' else digits_rev f (n / 10) acc'
  end.

Definition Z_to_string (z : Z) : string :=
  if z <? 0 then "-" +:+ digits_rev (Z.to_nat (Z.log2 (- z)) + 1) (- z) ""
  else digits_rev (Z.to_nat (Z.log2 z) + 1) z "".

(** [arr.at(-k)] for [k >= 1] *)
Definition at_neg {A} (k : nat) (l : list A) : option A :=
  if Nat.leb k (length l) then nth_error l (length l - k) else None.

(* ------------------------------------------------------------------ *)
(** ** Library fetching and the two exotic-library classifiers *)

(** [getLibraryByHash]: toncenter first, dton on any failure. *)
Definition getLibraryByHash `{E : Env} (testnet : bool) (hash : Z) : M Cell :=
  emit (EvGetLibrary hash);;
  catch (lift (getLibraryByHashToncenter testnet hash))
        (fun _ => lift (getLibraryByHashDton testnet hash)).

Definition EXOTIC_LIBRARY_TAG : Z := 2.

(** [addMaybeExoticLibrary] inside [collectUsedLibraries]; the local
    [libs] dictionary is passed explicitly. [libHashHex] is kept as the
    256-bit value [BigInt(`0x${libHashHex}`)] of the hash bytes. *)
Definition addMaybeExoticLibrary `{E : Env} (testnet : bool) (libs : gmap Z Cell)
    (code : option Cell) : M (gmap Z Cell * option Cell) :=
  match code with
  | None => mret (libs, None)
  | Some code =>
      if negb (Nat.eqb (length (cell_bits code)) (256 + 8)) then mret (libs, None)
      else
        '(tag, cs) ← lift (loadUint 8 (cell_bits code));
        if negb (Z.eqb tag EXOTIC_LIBRARY_TAG) then mret (libs, None)
        else
          '(libHash, _) ← lift (loadBuffer 32 cs);
          let libHashHex := bits_to_Z libHash in
          actualCode ← getLibraryByHash testnet libHashHex;
          mret (<[libHashHex := actualCode]> libs, Some actualCode)
  end.

(** [tryLoadAsLibrary] of the runner. *)
Definition tryLoadAsLibrary `{E : Env} (cell : string) (testnet : bool)
    : M (option (Z * Cell)) :=
  libCell ← lift (Cell_fromHex cell);
  if negb (Nat.eqb (length (cell_bits libCell)) (256 + 8)) then mret None
  else
    '(tag, cs) ← lift (loadUint 8 (cell_bits libCell));
    if negb (Z.eqb tag EXOTIC_LIBRARY_TAG) then mret None
    else
      '(libHash, _) ← lift (loadBuffer 32 cs);
      let libHashHex := bits_to_Z libHash in
      actualCode ← getLibraryByHash testnet libHashHex;
      mret (Some (libHashHex, actualCode)).

(** [collectUsedLibraries]: the library dictionary ([None] when empty)
    and the loaded code of the contract. *)
Definition collectUsedLibraries `{E : Env} (testnet : bool) (acc : ShardAccount)
    (tx : Transaction) (additionalLibs : list (Z * Cell))
    : M (option (gmap Z Cell) * option Cell) :=
  let libs : gmap Z Cell := ∅ in
  let loadedCellCode : option Cell := None in
  (* 1. the current contract code *)
  '(libs, loadedCellCode) ←
    match option_map state (account acc) with
    | Some (StateActive code _) => addMaybeExoticLibrary testnet libs code
    | _ => mret (libs, loadedCellCode)
    end;
  (* 2. the incoming StateInit; [??=] evaluates its right side only when
     [loadedCellCode] is still undefined *)
  '(libs, loadedCellCode) ←
    match inMessage tx ≫= init with
    | Some i =>
        match loadedCellCode with
        | Some _ => mret (libs, loadedCellCode)
        | None => addMaybeExoticLibrary testnet libs (si_code i)
        end
    | None => mret (libs, loadedCellCode)
    end;
  let libs := fold_left (fun libs '(hash, lib) => <[hash := lib]> libs) additionalLibs libs in
  if Nat.eqb (size libs) 0 then mret (None, loadedCellCode)
  else mret (Some libs, loadedCellCode).

(* ------------------------------------------------------------------ *)
(** ** [computeMinLt] *)

Definition computeMinLt `{E : Env} (tx : Transaction) (address : Address) (block : BlockInfo) : Z :=
  let addrStr := Address_toString address in
  fold_left
    (fun minLt shard =>
       fold_left
         (fun minLt txInBlock =>
            if String.eqb (tib_account txInBlock) addrStr && (tib_lt txInBlock <? minLt)
            then tib_lt txInBlock else minLt)
         (shard_transactions shard) minLt)
    (shards block) (tx_lt tx).

(* ------------------------------------------------------------------ *)
(** ** Replaying the previous transactions *)

(** The [emulate] helper of [prepareEmulator]. *)
Definition prepareEmulator `{E : Env} (blockConfig : string) (libs : option (gmap Z Cell))
    (randSeed : string) : EmulatorVersion * (Transaction -> string -> M EmulationResult) :=
  (executorVersion,
   fun tx shardAccountBase64 =>
     match inMessage tx with
     | None => throw "No in_message was found in transaction"
     | Some inMsg =>
         emit (EvEmulate (tx_lt tx) shardAccountBase64);;
         lift (runTransaction blockConfig libs shardAccountBase64 inMsg
                 (tx_now tx) (tx_lt tx) randSeed)
     end).

(** The [for] loop of [emulatePreviousTransactions]. *)
Fixpoint emulateLoop `{E : Env} (emulate : Transaction -> string -> M EmulationResult)
    (prevBalance : Z) (txs : list Transaction) (shardAccountBase64 : string)
    : M (Z * string) :=
  match txs with
  | [] => mret (prevBalance, shardAccountBase64)
  | tx :: rest =>
      res ← emulate tx shardAccountBase64;
      match result res with
      | EmuError _ =>
          throw ("Transaction failed for lt: " +:+ Z_to_string (tx_lt tx) +:+
                 ", logs: " +:+ logs res +:+ ", debugLogs: " +:+ debugLogs res)
      | EmuSuccess ok =>
          let shardAccountBase64 := res_shardAccount ok in
          shardAccount ← lift (loadShardAccount shardAccountBase64);
          let newBalance := option_map balance_coins (account shardAccount) in
          emulateLoop emulate (default 0 newBalance) rest shardAccountBase64
      end
  end.

Definition emulatePreviousTransactions `{E : Env} (prevBalance : Z)
    (prevTxsInBlock : list Transaction)
    (emulate : Transaction -> string -> M EmulationResult)
    (shardAccountBase64 : string) : M (Z * string) :=
  if Nat.eqb (length prevTxsInBlock) 0 then mret (prevBalance, shardAccountBase64)
  else emulateLoop emulate prevBalance prevTxsInBlock shardAccountBase64.

(* ------------------------------------------------------------------ *)
(** ** Assembling the report *)

Record FinalData := mkFinalData {
  fd_sender : option AnyAddress;
  fd_contract : AnyAddress;
  fd_money : TraceMoneyResult;
  fd_emulatedTx : Transaction;
  fd_amount : option Z;
  fd_computeInfo : ComputeInfo
}.

(** [computeFinalData]; the address renderings of the two [Invalid ...]
    messages are left out. *)
Definition computeFinalData `{E : Env} (res : EmulationResultSuccess) (balanceBefore : Z)
    : Outcome FinalData :=
  shardAccount ← loadShardAccount (res_shardAccount res);
  let endBalance := default 0 (option_map balance_coins (account shardAccount)) in
  emulatedTx ← loadTransaction (res_transaction res);
  match inMessage emulatedTx with
  | None => Throw "No in_message was found in result tx"
  | Some im =>
      let src := info_src (info im) in
      let dest := info_dest (info im) in
      if match src with Some s => negb (isAddress s) | None => false end
      then Throw "Invalid src address"
      else
        match dest with
        | Some d =>
            if negb (isAddress d) then Throw "Invalid dest address" else
            let amount := match info im with MsgInternal _ _ _ v => Some v | _ => None end in
            let sentTotal := calculateSentTotal emulatedTx in
            let totalFees := totalFees_coins emulatedTx in
            match description emulatedTx with
            | DescrOther ty =>
                Throw ("TxTracer doesn't support non-generic transaction. Given type: " +:+ ty)
            | DescrGeneric computePhase actionPhase =>
                let computeInfo :=
                  match computePhase with
                  | ComputeSkipped _ => CISkipped
                  | ComputeVm success exitCode vmSteps gasUsed gasFees =>
                      CIVm success
                        (if Z.eqb exitCode 0
                         then default 0 (option_map resultCode actionPhase)
                         else exitCode)
                        vmSteps gasUsed gasFees
                  end in
                Ok {| fd_sender := src;
                      fd_contract := d;
                      fd_money := {| balanceBefore := balanceBefore;
                                     sentTotal := sentTotal;
                                     totalFees := totalFees;
                                     balanceAfter := endBalance |};
                      fd_emulatedTx := emulatedTx;
                      fd_amount := amount;
                      fd_computeInfo := computeInfo |}
            end
        | None => Throw "Invalid dest address"
        end
  end.

(** [findFinalActions] *)
Definition findFinalActions `{E : Env} (res : EmulationResultSuccess)
    : Outcome (list OutAction * option Cell) :=
  match res_actions res with
  | None => Ok ([], None)
  | Some a =>
      c5 ← Cell_fromBase64 a;
      finalActions ← loadOutList c5;
      Ok (finalActions, Some c5)
  end.

(** The part of [retraceBaseTx] after the target transaction has been
    run: from [if (!txRes.result.success)] to the returned report. *)
Definition retraceBaseTxTail `{E : Env} (txRes : EmulationResult) (ourTx : Transaction)
    (prevBalance : Z) (loadedCode codeCell : option Cell)
    (emulatorVersion : EmulatorVersion) : Outcome TraceResult :=
  match result txRes with
  | EmuError e => Throw ("Transaction failed: " +:+ e)
  | EmuSuccess res =>
      '(finalActions, c5) ← findFinalActions res;
      fd ← computeFinalData res prevBalance;
      let stateUpdateHashOk :=
        bits_eqb (stateUpdate_newHash (fd_emulatedTx fd)) (stateUpdate_newHash ourTx) in
      opcode ← txOpcode ourTx;
      Ok {| stateUpdateHashOk := stateUpdateHashOk;
            codeCell := match loadedCode with Some c => Some c | None => codeCell end;
            originalCodeCell := codeCell;
            inMsg := {| sender := fd_sender fd; contract := fd_contract fd;
                        amount := fd_amount fd; opcode := opcode |};
            money := fd_money fd;
            emulatedTx := {| raw := storeTransactionHex ourTx;
                             utime := tx_now (fd_emulatedTx fd);
                             et_lt := tx_lt (fd_emulatedTx fd);
                             computeInfo := fd_computeInfo fd;
                             executorLogs := logs txRes;
                             actions := finalActions;
                             c5 := c5;
                             vmLogs := res_vmLog res |};
            emulatorVersion := emulatorVersion |}
  end.

(** [retraceBaseTx]. [ourTx] is [undefined] when the provider returns
    no transaction; the first read of it ([tx.inMessage] in [emulate])
    then throws. *)
Definition retraceBaseTx `{E : Env} (testnet : bool) (baseTx : BaseTxInfo)
    (additionalLibs : list (Z * Cell)) : M TraceResult :=
  rawTxs ← lift (findRawTxByHash testnet baseTx);
  match rawTxs with
  | [] => throw "Cannot find transaction info"
  | tx :: _ =>
  let shard_rootHash := rawtx_block_rootHash tx in
  block ← lift (findShardBlockForTx testnet tx);
  match block with
  | None => throw "Cannot find shard block for transaction"
  | Some block =>
  if negb (String.eqb (root_hash block) shard_rootHash)
  then throw ("root_hash mismatch in mc_seqno getter: " +:+ shard_rootHash +:+
              " != " +:+ root_hash block)
  else
  let mcSeqno := masterchain_seqno block in
  let randSeed := rand_seed block in
  fullBlock ← lift (findFullBlockForSeqno testnet mcSeqno);
  let minLt := computeMinLt (rawtx_tx tx) (base_address baseTx) fullBlock in
  allTxs ← lift (findAllTransactionsBetween testnet baseTx minLt);
  let '(ourTx, prevTxsInBlock) :=
    match allTxs with [] => (None, []) | t :: r => (Some t, r) end in
  let prevTxsInBlock := rev prevTxsInBlock in
  blockConfig ← lift (getBlockConfig testnet fullBlock);
  shardAccountBeforeTx ← lift (getBlockAccount testnet (base_address baseTx) fullBlock);
  '(libs, loadedCode) ←
    collectUsedLibraries testnet shardAccountBeforeTx (rawtx_tx tx) additionalLibs;
  let codeCell : option Cell :=
    match option_map state (account shardAccountBeforeTx) with
    | Some (StateActive code _) => code
    | _ => match inMessage (rawtx_tx tx) with
           | Some m => match init m with Some i => si_code i | None => None end
           | None => None
           end
    end in
  let '(emulatorVersion, emulate) := prepareEmulator blockConfig libs randSeed in
  let shardAccountBeforeTx :=
    {| account := account shardAccountBeforeTx;
       lastTransactionLt := 0; lastTransactionHash := 0 |} in
  let initialShardAccountBase64 := shardAccountToBase64 shardAccountBeforeTx in
  let balance := default 0 (option_map balance_coins (account shardAccountBeforeTx)) in
  '(prevBalance, shardAccountBase64) ←
    emulatePreviousTransactions balance prevTxsInBlock emulate initialShardAccountBase64;
  match ourTx with
  | None => throw "TypeError: Cannot read properties of undefined (reading 'inMessage')"
  | Some ourTx =>
      txRes ← emulate ourTx shardAccountBase64;
      lift (retraceBaseTxTail txRes ourTx prevBalance loadedCode codeCell emulatorVersion)
  end
  end
  end.

(* ------------------------------------------------------------------ *)
(** ** The retry controller [retrace] *)

(** The VM-log pattern of [retrace]: the stack dump before a [CTOS] that
    failed with "failed to load library cell". *)
Definition libraryStackLine (lines : list VmLine) : option (list StackEntry) :=
  match at_neg 2 lines, at_neg 3 lines, at_neg 4 lines, at_neg 6 lines with
  | Some (VmExceptionHandler _), Some (VmException _ message), Some (VmExecute instr),
    Some (VmStack stack) =>
      if String.eqb message "failed to load library cell" && String.eqb instr "CTOS"
      then Some stack else None
  | _, _, _, _ => None
  end.

(** [retrace]; the recursion on an extended library list is bounded by
    [fuel]. *)
Fixpoint retrace `{E : Env} (fuel : nat) (testnet : bool) (txLink : string)
    (additionalLibs : list (Z * Cell)) : M TraceResult :=
  match fuel with
  | O => throw "RangeError: Maximum call stack size exceeded"
  | S fuel' =>
      emit (EvFindBaseTx txLink);;
      baseTx ← lift (findBaseTxByHash testnet txLink);
      match baseTx with
      | None => throw "Cannot find transaction info"
      | Some baseTx =>
          result ← retraceBaseTx testnet baseTx additionalLibs;
          match computeInfo (emulatedTx result) with
          | CISkipped => mret result
          | CIVm _ exitCode _ _ _ =>
              if Z.eqb exitCode 0 then mret result (* fast path *)
              else if Z.eqb exitCode 9 then
                match libraryStackLine (logs_parse (vmLogs (emulatedTx result))) with
                | Some stack =>
                    match at_neg 1 stack with
                    | Some (StackCell boc) =>
                        libraryResult ← tryLoadAsLibrary boc testnet;
                        match libraryResult with
                        | None => mret result
                        | Some (libHashHex, actualCode) =>
                            retrace fuel' testnet txLink
                              (additionalLibs ++ [(libHashHex, actualCode)])
                        end
                    | _ => mret result
                    end
                | None => mret result
                end
              else mret result
          end
      end
  end.

(* ------------------------------------------------------------------ *)
(** ** Vocabulary for the properties *)

(** The coins of an outgoing message when it is internal. *)
Definition internal_coins (m : Message) : option Z :=
  match info m with MsgInternal _ _ _ v => Some v | _ => None end.

(** The coins of the internal messages of a list, in order. *)
Fixpoint internal_values (l : list Message) : list Z :=
  match l with
  | [] => []
  | m :: l' =>
      match internal_coins m with
      | Some v => v :: internal_values l'
      | None => internal_values l'
      end
  end.

Definition set_outMessages (tx : Transaction) (l : list Message) : Transaction :=
  {| tx_lt := tx_lt tx; tx_now := tx_now tx; inMessage := inMessage tx;
     outMessages := l; totalFees_coins := totalFees_coins tx;
     description := description tx; stateUpdate_newHash := stateUpdate_newHash tx |}.

Definition set_newHash (tx : Transaction) (h : list bool) : Transaction :=
  {| tx_lt := tx_lt tx; tx_now := tx_now tx; inMessage := inMessage tx;
     outMessages := outMessages tx; totalFees_coins := totalFees_coins tx;
     description := description tx; stateUpdate_newHash := h |}.

Definition is_ok {A} (o : Outcome A) : bool :=
  match o with Ok _ => true | Throw _ => false end.

(** All transaction entries of the shard summaries of a block. *)
Definition block_entries (block : BlockInfo) : list TxInBlock :=
  concat (map shard_transactions (shards block)).

(** [replays cfg libs seed b s txs b' s' ev]: every transaction of [txs]
    runs successfully from snapshot [s], each step starting from the
    snapshot the previous one returned and carrying the balance read from
    it; [b'] and [s'] are the last balance and snapshot and [ev] the
    executor calls, one per transaction. *)
Inductive replays `{E : Env} (cfg : string) (libs : option (gmap Z Cell)) (seed : string)
  : Z -> string -> list Transaction -> Z -> string -> list Event -> Prop :=
| replays_nil b s : replays cfg libs seed b s [] b s []
| replays_cons b s tx rest m res ok sa b' s' ev :
    inMessage tx = Some m ->
    runTransaction cfg libs s m (tx_now tx) (tx_lt tx) seed = Ok res ->
    result res = EmuSuccess ok ->
    loadShardAccount (res_shardAccount ok) = Ok sa ->
    replays cfg libs seed (default 0 (option_map balance_coins (account sa)))
      (res_shardAccount ok) rest b' s' ev ->
    replays cfg libs seed b s (tx :: rest) b' s' (EvEmulate (tx_lt tx) s :: ev).

(** The stack top of a log that matched the pattern is not an exotic
    library cell. *)
Definition top_not_library `{E : Env} (stack : list StackEntry) : Prop :=
  match at_neg 1 stack with
  | Some (StackCell boc) =>
      exists c, Cell_fromHex boc = Ok c /\
        ~ (length (cell_bits c) = 264%nat /\
           bits_to_Z (firstn 8 (cell_bits c)) = EXOTIC_LIBRARY_TAG)
  | _ => True
  end.

(* ------------------------------------------------------------------ *)
(** ** A concrete environment (fixtures for the examples) *)

(** [n] low bits of [z], most significant first. *)
Fixpoint Z_to_bits (n : nat) (z : Z) : list bool :=
  match n with
  | O => []
  | S n' => Z.testbit z (Z.of_nat n') :: Z_to_bits n' z
  end.

(** A 264-bit exotic library cell for hash [h]. *)
Definition libraryCell (h : Z) : Cell := mkCell (Z_to_bits 8 2 ++ Z_to_bits 256 h) [].

Definition libCode1 : Cell := mkCell [true; true; false] [].
Definition libCode2 : Cell := mkCell [false; true] [].
Definition plainCode : Cell := mkCell (Z_to_bits 16 4660) [].

Definition addrA : Address := mkAddress 0 1.
Definition addrB : Address := mkAddress 0 42.

Definition demoMsg (bounced : bool) (init : option StateInit) (bodyBits : list bool) : Message :=
  mkMessage (MsgInternal bounced addrA addrB 1000) init (mkCell bodyBits []).

Definition demoTx (lt : Z) (m : Message) (descr : TransactionDescription) : Transaction :=
  mkTransaction lt 1700000000 (Some m)
    [mkMessage (MsgInternal false addrB addrA 300) None (mkCell [] []);
     mkMessage (MsgExternalOut addrB None) None (mkCell [] []);
     mkMessage (MsgInternal false addrB addrA 200) None (mkCell [] [])]
    7 descr [true; false; true].

Definition descr9 : TransactionDescription :=
  DescrGeneric (ComputeVm false 9 12 500 5000) None.

(** The chain's copy of the target transaction and the executor's one. *)
Definition chainTx : Transaction := demoTx 10 (demoMsg false None (Z_to_bits 32 7)) descr9.
Definition emulatedTx9 : Transaction := demoTx 10 (demoMsg false None (Z_to_bits 32 7)) descr9.

Definition activeAccount (code : option Cell) (coins : Z) : ShardAccount :=
  mkShardAccount (Some (mkAccount coins (StateActive code None))) 5 77.

Definition demoEnv : Env := {|
  getLibraryByHashToncenter := fun _ h =>
    if Z.eqb h 1 then Ok libCode1 else Throw "toncenter: not found";
  getLibraryByHashDton := fun _ h =>
    if Z.eqb h 2 then Ok libCode2 else Throw "dton: not found";
  Cell_fromHex := fun s =>
    if String.eqb s "B5EE_PLAIN" then Ok plainCode
    else if String.eqb s "B5EE_LIB1" then Ok (libraryCell 1)
    else Throw "Invalid BoC";
  Cell_fromBase64 := fun _ => Ok (mkCell [] []);
  loadShardAccount := fun s =>
    if String.eqb s "snap1" then Ok (activeAccount (Some plainCode) 900)
    else if String.eqb s "snap2" then Ok (activeAccount (Some plainCode) 800)
    else Throw "Invalid BoC";
  loadTransaction := fun s =>
    if String.eqb s "emutx9" then Ok emulatedTx9 else Throw "Invalid BoC";
  loadOutList := fun _ => Ok [];
  shardAccountToBase64 := fun _ => "snap0";
  storeTransactionHex := fun _ => "b5ee9c72";
  Address_toString := fun a => if Z.eqb (addr_hash a) 42 then "EQ42" else "EQ01";
  logs_parse := fun s =>
    if String.eqb s "vmlog_underflow" then
      [VmStack [StackInt 3]; VmLoc "code cell hash: 4F5F offset: 887";
       VmExecute "LDU"; VmException 9 "cell underflow";
       VmExceptionHandler 9; VmUnknown "final c5"]
    else [];
  findBaseTxByHash := fun _ link =>
    if String.eqb link "tx9" then Ok (Some (mkBaseTxInfo 10 [true] addrB)) else Ok None;
  findRawTxByHash := fun _ _ => Ok [mkRawTx chainTx "root"];
  findShardBlockForTx := fun _ _ => Ok (Some (mkShardBlock "root" 100 "seed"));
  findFullBlockForSeqno := fun _ _ =>
    Ok (mkBlockInfo [mkShardInfo [mkTxInBlock 8 "h8" "EQ42"; mkTxInBlock 3 "h3" "EQ01"]]);
  findAllTransactionsBetween := fun _ _ _ => Ok [chainTx];
  getBlockConfig := fun _ _ => Ok "cfg";
  getBlockAccount := fun _ _ _ => Ok (activeAccount (Some plainCode) 1000);
  executorVersion := mkEmulatorVersion "abc" "2025-01-01";
  runTransaction := fun _ _ s _ _ lt _ =>
    if Z.eqb lt 1 then
      Ok (mkEmulationResult (EmuSuccess (mkEmulationResultSuccess "t1" "snap1" "" None))
            "ok 1" "")
    else if Z.eqb lt 2 then
      Ok (mkEmulationResult (EmuError "bad") "exec log 2" "debug log 2")
    else if Z.eqb lt 10 then
      Ok (mkEmulationResult
            (EmuSuccess (mkEmulationResultSuccess "emutx9" "snap2" "vmlog_underflow" None))
            "exec log" "")
    else Throw "unexpected transaction"
|}.

(** An active account whose code is the library cell of hash 1, and an
    incoming message whose StateInit code is the library cell of hash 2. *)
Definition accountWithLib1 : ShardAccount := activeAccount (Some (libraryCell 1)) 5.
Definition txDeployingLib2 : Transaction :=
  demoTx 10 (demoMsg false (Some (mkStateInit (Some (libraryCell 2)) None)) []) descr9.

Definition demoTxRes : EmulationResult :=
  mkEmulationResult
    (EmuSuccess (mkEmulationResultSuccess "emutx9" "snap2" "vmlog_underflow" None))
    "exec log" "".

(** A previous transaction with logical time [lt], no body. *)
Definition prevTx (lt : Z) : Transaction := demoTx lt (demoMsg false None []) descr9.

(* ------------------------------------------------------------------ *)
(** ** [BigInt(string)] and [base64ToBigint] (utils) *)

(** The white space around a [BigInt] literal (the ASCII
    StrWhiteSpaceChar and LineTerminator code points). *)
Definition is_js_space (c : ascii) : bool :=
  let n := N_of_ascii c in
  (n =? 9)%N || (n =? 10)%N || (n =? 11)%N || (n =? 12)%N || (n =? 13)%N || (n =? 32)%N.

Fixpoint ltrim_js (l : list ascii) : list ascii :=
  match l with
  | c :: l' => if is_js_space c then ltrim_js l' else l
  | [] => []
  end.

Definition trim_js (l : list ascii) : list ascii := rev (ltrim_js (rev (ltrim_js l))).

(** Value of a digit character, letters of either case counting from 10. *)
Definition digit_value (c : ascii) : option Z :=
  let n := Z.of_N (N_of_ascii c) in
  if (48 <=? n) && (n <=? 57) then Some (n - 48)
  else if (97 <=? n) && (n <=? 122) then Some (n - 87)
  else if (65 <=? n) && (n <=? 90) then Some (n - 55)
  else None.

(** The digits [l] read in base [radix] after the value [acc]. *)
Fixpoint digits_value (radix acc : Z) (l : list ascii) : option Z :=
  match l with
  | [] => Some acc
  | c :: l' =>
      match digit_value c with
      | Some d => if d <? radix then digits_value radix (acc * radix + d) l' else None
      | None => None
      end
  end.

(** A non-empty digit sequence. *)
Definition digits_nonempty (radix : Z) (l : list ascii) : option Z :=
  match l with [] => None | _ => digits_value radix 0 l end.

(** StrIntegerLiteral: an optionally signed decimal integer. *)
Definition signed_decimal (l : list ascii) : option Z :=
  match l with
  | c :: ds =>
      if (c =? "+")%char then digits_nonempty 10 ds
      else if (c =? "-")%char then option_map Z.opp (digits_nonempty 10 ds)
      else digits_nonempty 10 l
  | [] => None
  end.

(** StringToBigInt: white space trimmed, the empty literal is 0, then a
    [0x]/[0o]/[0b] literal or a signed decimal one. *)
Definition StringToBigInt (s : string) : option Z :=
  let l := trim_js (String.list_ascii_of_string s) in
  match l with
  | [] => Some 0
  | c0 :: c1 :: ds =>
      if (c0 =? "0")%char && ((c1 =? "x")%char || (c1 =? "X")%char) then digits_nonempty 16 ds
      else if (c0 =? "0")%char && ((c1 =? "o")%char || (c1 =? "O")%char) then digits_nonempty 8 ds
      else if (c0 =? "0")%char && ((c1 =? "b")%char || (c1 =? "B")%char) then digits_nonempty 2 ds
      else signed_decimal l
  | _ => signed_decimal l
  end.

(** [BigInt(s)] for a string [s]: a SyntaxError when [s] is no integer
    literal. *)
Definition BigInt (s : string) : Outcome Z :=
  match StringToBigInt s with
  | Some z => Ok z
  | None => Throw ("SyntaxError: Cannot convert " +:+ s +:+ " to a BigInt")
  end.

(** The lower-case hexadecimal digit of [d < 16]. *)
Definition hex_char (d : Z) : ascii :=
  ascii_of_N (Z.to_N (if d <? 10 then 48 + d else 87 + d)).

(** The two lower-case hexadecimal digits of a byte. *)
Definition byte_hex (b : Byte.byte) : list ascii :=
  let n := Z.of_N (Byte.to_N b) in [hex_char (n / 16); hex_char (n mod 16)].

(** [buf.toString("hex")]: two digits per byte. *)
Definition Buffer_toString_hex (buf : list Byte.byte) : string :=
  String.string_of_list_ascii (concat (map byte_hex buf)).

(** [base64ToBigint]; [Buffer_from_base64] is Node's base64 decoder
    ([Buffer.from(b64, "base64")]). *)
Definition base64ToBigint (Buffer_from_base64 : string -> list Byte.byte) (b64 : string)
    : Outcome Z :=
  BigInt ("0x" +:+ Buffer_toString_hex (Buffer_from_base64 b64)).

(** Big-endian value of a byte string. *)
Definition bytes_to_Z (buf : list Byte.byte) : Z :=
  fold_left (fun acc b => acc * 256 + Z.of_N (Byte.to_N b)) buf 0.

(* ------------------------------------------------------------------ *)
(** ** The shard parameter of [findShardBlockForTx] *)

(** [shardInt < 0 ? shardInt + BigInt("0x10000000000000000") : shardInt] *)
Definition findShardBlockForTx_shardUint (shardInt : Z) : Z :=
  if shardInt <? 0 then shardInt + 18446744073709551616 else shardInt.

(** Hexadecimal digits of [n >= 0], most significant first, in front of
    [acc]. *)
Fixpoint hex_digits_rev (fuel : nat) (n : Z) (acc : list ascii) : list ascii :=
  match fuel with
  | O => acc
  | S f =>
      let acc' := hex_char (n mod 16) :: acc in
      if n <? 16 then acc' else hex_digits_rev f (n / 16) acc'
  end.

(** [n.toString(16)] for a bigint [n]. *)
Definition BigInt_toString16 (n : Z) : string :=
  if n <? 0
  then "-" +:+ String.string_of_list_ascii (hex_digits_rev (Z.to_nat (Z.log2 (- n)) + 1) (- n) [])
  else String.string_of_list_ascii (hex_digits_rev (Z.to_nat (Z.log2 n) + 1) n []).

(** The [shard] request parameter: ["0x" + shardUint.toString(16)]. *)
Definition findShardBlockForTx_shardParam (shardInt : Z) : string :=
  "0x" +:+ BigInt_toString16 (findShardBlockForTx_shardUint shardInt).

(* ------------------------------------------------------------------ *)
(** ** More vocabulary *)

(** The value of the last pair for [h] in an association list. *)
Fixpoint assoc_last (h : Z) (l : list (Z * Cell)) : option Cell :=
  match l with
  | [] => None
  | (k, v) :: r =>
      match assoc_last h r with
      | Some c => Some c
      | None => if Z.eqb k h then Some v else None
      end
  end.

(** Lookup in the library dictionary handed to the executor ([None]
    when there is none). *)
Definition libs_lookup (libs : option (gmap Z Cell)) (h : Z) : option Cell :=
  match libs with Some m => m !! h | None => None end.

(** The executor calls of a trace: logical time and snapshot. *)
Fixpoint emulations (tr : list Event) : list (Z * string) :=
  match tr with
  | [] => []
  | EvEmulate lt s :: r => (lt, s) :: emulations r
  | _ :: r => emulations r
  end.

(** The in-message infos [computeFinalData] accepts: an internal message,
    or an external-in message without a source address. *)
Definition in_message_accepted (i : CommonMessageInfo) : bool :=
  match i with
  | MsgInternal _ _ _ _ => true
  | MsgExternalIn None _ => true
  | _ => false
  end.

(* ------------------------------------------------------------------ *)
(** ** More fixtures *)

(** [demoEnv] with other chain answers and another VM-log parser. *)
Definition demoEnvWith (rawTxs : Outcome (list RawTx)) (blk : Outcome (option ShardBlock))
    (parse : string -> list VmLine) : Env := {|
  getLibraryByHashToncenter := @getLibraryByHashToncenter demoEnv;
  getLibraryByHashDton := @getLibraryByHashDton demoEnv;
  Cell_fromHex := @Cell_fromHex demoEnv;
  Cell_fromBase64 := @Cell_fromBase64 demoEnv;
  loadShardAccount := @loadShardAccount demoEnv;
  loadTransaction := @loadTransaction demoEnv;
  loadOutList := @loadOutList demoEnv;
  shardAccountToBase64 := @shardAccountToBase64 demoEnv;
  storeTransactionHex := @storeTransactionHex demoEnv;
  Address_toString := @Address_toString demoEnv;
  logs_parse := parse;
  findBaseTxByHash := @findBaseTxByHash demoEnv;
  findRawTxByHash := fun _ _ => rawTxs;
  findShardBlockForTx := fun _ _ => blk;
  findFullBlockForSeqno := @findFullBlockForSeqno demoEnv;
  findAllTransactionsBetween := @findAllTransactionsBetween demoEnv;
  getBlockConfig := @getBlockConfig demoEnv;
  getBlockAccount := @getBlockAccount demoEnv;
  executorVersion := @executorVersion demoEnv;
  runTransaction := @runTransaction demoEnv
|}.

(** A log ending with the missing-library pattern whose stack top is the
    ordinary code cell. *)
Definition plainTopLibraryLog : list VmLine :=
  [VmStack [StackInt 1; StackCell "B5EE_PLAIN"]; VmLoc "code cell hash: 4F5F offset: 900";
   VmExecute "CTOS"; VmException 9 "failed to load library cell";
   VmExceptionHandler 9; VmUnknown "final c5"].

Definition plainTopEnv : Env :=
  demoEnvWith (Ok [mkRawTx chainTx "root"]) (Ok (Some (mkShardBlock "root" 100 "seed")))
    (fun _ => plainTopLibraryLog).


(* ================================================================== *)
(** * Properties *)

Lemma loadUint_ok n s : Nat.leb n (length s) = true ->
  loadUint n s = Ok (bits_to_Z (firstn n s), skipn n s).
Proof.
  intros Hle. unfold loadUint. apply Nat.leb_le in Hle.
  destruct (Nat.ltb_spec (length s) n); [lia | reflexivity].
Qed.

Lemma loadBuffer_ok n s : Nat.leb (8 * n) (length s) = true ->
  loadBuffer n s = Ok (firstn (8 * n) s, skipn (8 * n) s).
Proof.
  intros Hle. unfold loadBuffer. apply Nat.leb_le in Hle.
  destruct (Nat.ltb_spec (length s) (8 * n)); [lia | reflexivity].
Qed.

Lemma bind_lift_Ok {A B} (a : A) (f : A -> M B) tr : (lift (Ok a) ≫= f) tr = f a tr.
Proof. reflexivity. Qed.

Lemma bind_lift_Throw {A B} m (f : A -> M B) tr : (lift (Throw m) ≫= f) tr = (Throw m, tr).
Proof. reflexivity. Qed.

(** The 256 bits after the tag byte of a 264-bit cell. *)
Lemma firstn_256_skipn_8 (bs : list bool) : length bs = 264%nat ->
  firstn (8 * 32) (skipn 8 bs) = skipn 8 bs.
Proof.
  intros Hl. apply firstn_all2. rewrite length_skipn. lia.
Qed.

(** Shared unfolding of the two classifiers. *)
Ltac classify_cell bs Hl :=
  destruct (Nat.eqb_spec (length bs) 264) as [Hl | Hl]; simpl;
  [ rewrite Hl; simpl;
    rewrite (loadUint_ok 8 bs) by (rewrite Hl; reflexivity);
    unfold mbind, m_bind, lift; cbn beta iota;
    destruct (Z.eqb (bits_to_Z (firstn 8 bs)) EXOTIC_LIBRARY_TAG);
    cbn [negb];
    [ rewrite (loadBuffer_ok 32 (skipn 8 bs))
        by (rewrite length_skipn, Hl; reflexivity);
      rewrite (firstn_256_skipn_8 bs Hl); reflexivity
    | reflexivity ]
  | destruct (Nat.eqb (length bs) 264) eqn:Hlen;
    [ apply Nat.eqb_eq in Hlen; congruence | reflexivity ] ].

Lemma addMaybeExoticLibrary_Some `{E : Env} testnet libs code tr :
  addMaybeExoticLibrary testnet libs (Some code) tr =
  if Nat.eqb (length (cell_bits code)) 264 &&
     Z.eqb (bits_to_Z (firstn 8 (cell_bits code))) EXOTIC_LIBRARY_TAG
  then (actualCode ← getLibraryByHash testnet (bits_to_Z (skipn 8 (cell_bits code)));
        mret (<[bits_to_Z (skipn 8 (cell_bits code)) := actualCode]> libs,
              Some actualCode)) tr
  else (Ok (libs, None), tr).
Proof.
  destruct code as [bs rs]. unfold addMaybeExoticLibrary, cell_bits.
  classify_cell bs Hl.
Qed.

Lemma tryLoadAsLibrary_eq `{E : Env} testnet boc tr :
  tryLoadAsLibrary boc testnet tr =
  match Cell_fromHex boc with
  | Throw m => (Throw m, tr)
  | Ok c =>
      if Nat.eqb (length (cell_bits c)) 264 &&
         Z.eqb (bits_to_Z (firstn 8 (cell_bits c))) EXOTIC_LIBRARY_TAG
      then (actualCode ← getLibraryByHash testnet (bits_to_Z (skipn 8 (cell_bits c)));
            mret (Some (bits_to_Z (skipn 8 (cell_bits c)), actualCode))) tr
      else (Ok None, tr)
  end.
Proof.
  unfold tryLoadAsLibrary.
  destruct (Cell_fromHex boc) as [[bs rs] | m]; [| reflexivity].
  rewrite bind_lift_Ok. unfold cell_bits. classify_cell bs Hl.
Qed.

(** C1. A code cell is an exotic library reference exactly when it has
    264 bits and its first byte (read after [beginParse(true)]) is the tag
    2; the library hash is then the value of the remaining 256 bits, and
    any other cell is ordinary code. [addMaybeExoticLibrary] (library
    scanner) and [tryLoadAsLibrary] (retry controller, after decoding the
    stack cell's BoC) apply this same rule. *)
Theorem exotic_library_rule `{E : Env} :
  (forall testnet libs code tr,
     addMaybeExoticLibrary testnet libs (Some code) tr =
     if Nat.eqb (length (cell_bits code)) 264 &&
        Z.eqb (bits_to_Z (firstn 8 (cell_bits code))) EXOTIC_LIBRARY_TAG
     then (actualCode ← getLibraryByHash testnet (bits_to_Z (skipn 8 (cell_bits code)));
           mret (<[bits_to_Z (skipn 8 (cell_bits code)) := actualCode]> libs,
                 Some actualCode)) tr
     else (Ok (libs, None), tr)) /\
  (forall testnet boc tr,
     tryLoadAsLibrary boc testnet tr =
     match Cell_fromHex boc with
     | Throw m => (Throw m, tr)
     | Ok c =>
         if Nat.eqb (length (cell_bits c)) 264 &&
            Z.eqb (bits_to_Z (firstn 8 (cell_bits c))) EXOTIC_LIBRARY_TAG
         then (actualCode ← getLibraryByHash testnet (bits_to_Z (skipn 8 (cell_bits c)));
               mret (Some (bits_to_Z (skipn 8 (cell_bits c)), actualCode))) tr
         else (Ok None, tr)
     end).
Proof.
  split; intros; [apply addMaybeExoticLibrary_Some | apply tryLoadAsLibrary_eq].
Qed.

(* ------------------------------------------------------------------ *)
(** ** The retry controller *)

Lemma bind_emit {B} e (f : unit -> M B) tr : (emit e ≫= f) tr = f tt (tr ++ [e]).
Proof. reflexivity. Qed.

Lemma bind_run {A B} (c : M A) (f : A -> M B) tr a tr' :
  c tr = (Ok a, tr') -> (c ≫= f) tr = f a tr'.
Proof. intros Hc. unfold mbind, m_bind. rewrite Hc. reflexivity. Qed.

(** C2. When the reconstruction succeeds with a non-zero compute exit code
    and either the last VM-log entries are not the missing-library pattern
    (exception handler, exception "failed to load library cell", [CTOS],
    stack dump) or the stack top is not an exotic library cell, [retrace]
    makes no second attempt: its result and its trace of external calls
    are exactly those of the single [retraceBaseTx] run. *)
Theorem retrace_returns_unretried `{E : Env} fuel testnet txLink additionalLibs tr
    baseTx r tr2 success exitCode vmSteps gasUsed gasFees :
  findBaseTxByHash testnet txLink = Ok (Some baseTx) ->
  retraceBaseTx testnet baseTx additionalLibs (tr ++ [EvFindBaseTx txLink]) = (Ok r, tr2) ->
  computeInfo (emulatedTx r) = CIVm success exitCode vmSteps gasUsed gasFees ->
  exitCode <> 0 ->
  (libraryStackLine (logs_parse (vmLogs (emulatedTx r))) = None \/
   exists stack, libraryStackLine (logs_parse (vmLogs (emulatedTx r))) = Some stack /\
                 top_not_library stack) ->
  retrace (S fuel) testnet txLink additionalLibs tr = (Ok r, tr2).
Proof.
  intros Hb Hr Hci Hne Hsig. cbn [retrace].
  rewrite bind_emit. rewrite Hb, bind_lift_Ok.
  rewrite (bind_run _ _ _ _ _ Hr), Hci.
  destruct (Z.eqb_spec exitCode 0) as [He | _]; [contradiction |].
  destruct (Z.eqb exitCode 9); [| reflexivity].
  destruct Hsig as [Hn | [stack [Hs Ht]]].
  - rewrite Hn. reflexivity.
  - rewrite Hs. unfold top_not_library in Ht.
    destruct (at_neg 1 stack) as [[boc | v | t] |]; try reflexivity.
    destruct Ht as [c [Hc Hnl]].
    assert (Hload : tryLoadAsLibrary boc testnet tr2 = (Ok None, tr2)).
    { rewrite tryLoadAsLibrary_eq, Hc.
      destruct (Nat.eqb_spec (length (cell_bits c)) 264) as [Hl | Hl]; [| reflexivity].
      destruct (Z.eqb_spec (bits_to_Z (firstn 8 (cell_bits c))) EXOTIC_LIBRARY_TAG)
        as [Ht | Ht]; [exfalso; tauto | reflexivity]. }
    rewrite (bind_run _ _ _ _ _ Hload). reflexivity.
Qed.

(** The fixture run: exit code 9 from an ordinary cell underflow. *)
Lemma retrace_returns_unretried_witness :
  exists r tr2,
    @retraceBaseTx demoEnv false (mkBaseTxInfo 10 [true] addrB) [] ([] ++ [EvFindBaseTx "tx9"])
      = (Ok r, tr2) /\
    @retrace demoEnv 3 false "tx9" [] [] = (Ok r, tr2).
Proof.
  do 2 eexists. split.
  - vm_compute. reflexivity.
  - apply (@retrace_returns_unretried demoEnv 2 false "tx9" [] [] (mkBaseTxInfo 10 [true] addrB)
             _ _ false 9 12 500 5000).
    + vm_compute. reflexivity.
    + vm_compute. reflexivity.
    + vm_compute. reflexivity.
    + lia.
    + left. vm_compute. reflexivity.
Defined.

(* ------------------------------------------------------------------ *)
(** ** The report *)

Lemma bits_eqb_spec a b : bits_eqb a b = true <-> a = b.
Proof.
  revert b; induction a as [| x a IH]; intros [| y b]; simpl;
    try (split; congruence).
  rewrite andb_true_iff, IH. destruct x, y; simpl; split; intros; intuition congruence.
Qed.

(** What a successful [computeFinalData] has read. *)
Lemma computeFinalData_Ok `{E : Env} res balanceBefore fd :
  computeFinalData res balanceBefore = Ok fd ->
  loadTransaction (res_transaction res) = Ok (fd_emulatedTx fd) /\
  exists computePhase actionPhase,
    description (fd_emulatedTx fd) = DescrGeneric computePhase actionPhase /\
    fd_computeInfo fd =
      match computePhase with
      | ComputeSkipped _ => CISkipped
      | ComputeVm success exitCode vmSteps gasUsed gasFees =>
          CIVm success
            (if Z.eqb exitCode 0 then default 0 (option_map resultCode actionPhase)
             else exitCode) vmSteps gasUsed gasFees
      end.
Proof.
  unfold computeFinalData. intros H.
  destruct (loadShardAccount (res_shardAccount res)) as [sa |]; simpl in H; [| discriminate].
  destruct (loadTransaction (res_transaction res)) as [etx |]; simpl in H; [| discriminate].
  destruct (inMessage etx) as [im |]; [| discriminate].
  destruct (match info_src (info im) with Some s => negb (isAddress s) | None => false end);
    [discriminate |].
  destruct (info_dest (info im)) as [d |]; [| discriminate].
  destruct (negb (isAddress d)); [discriminate |].
  destruct (description etx) as [cp ap | ty] eqn:Hd; [| discriminate].
  injection H as <-. simpl. split; [reflexivity |].
  exists cp, ap. split; [exact Hd |]. destruct cp; reflexivity.
Qed.

(** C3. A state-hash mismatch is never an error: whenever the steps
    after the target run produce a report, they produce one for every
    other on-chain state hash as well, with [stateUpdateHashOk] true
    exactly when the emulated transaction's new hash equals the on-chain
    one bit for bit. *)
Theorem state_hash_mismatch_flagged `{E : Env} txRes ourTx prevBalance loadedCode codeCell
    version rep :
  retraceBaseTxTail txRes ourTx prevBalance loadedCode codeCell version = Ok rep ->
  exists res etx,
    result txRes = EmuSuccess res /\
    loadTransaction (res_transaction res) = Ok etx /\
    (stateUpdateHashOk rep = true <-> stateUpdate_newHash etx = stateUpdate_newHash ourTx) /\
    forall h, exists rep',
      retraceBaseTxTail txRes (set_newHash ourTx h) prevBalance loadedCode codeCell version
        = Ok rep' /\
      (stateUpdateHashOk rep' = true <-> stateUpdate_newHash etx = h).
Proof.
  unfold retraceBaseTxTail. intros H.
  destruct (result txRes) as [res | e]; [| discriminate].
  destruct (findFinalActions res) as [[fa c5'] |] eqn:Hfa; simpl in H; [| discriminate].
  destruct (computeFinalData res prevBalance) as [fd |] eqn:Hfd; simpl in H; [| discriminate].
  destruct (txOpcode ourTx) as [op |] eqn:Hop; simpl in H; [| discriminate].
  injection H as <-.
  destruct (computeFinalData_Ok _ _ _ Hfd) as [Hlt _].
  exists res, (fd_emulatedTx fd). split; [reflexivity |]. split; [exact Hlt |].
  split; [simpl; apply bits_eqb_spec |].
  intros h. simpl.
  assert (Hop' : txOpcode (set_newHash ourTx h) = Ok op) by exact Hop.
  rewrite Hop'. simpl. eexists. split; [reflexivity |]. simpl. apply bits_eqb_spec.
Qed.

Lemma state_hash_mismatch_flagged_witness :
  exists rep,
    @retraceBaseTxTail demoEnv demoTxRes chainTx 1000 None (Some plainCode)
      (mkEmulatorVersion "abc" "2025-01-01") = Ok rep /\
    exists res etx,
      result demoTxRes = EmuSuccess res /\
      @loadTransaction demoEnv (res_transaction res) = Ok etx /\
      (stateUpdateHashOk rep = true <->
         stateUpdate_newHash etx = stateUpdate_newHash chainTx) /\
      forall h, exists rep',
        @retraceBaseTxTail demoEnv demoTxRes (set_newHash chainTx h) 1000 None
          (Some plainCode) (mkEmulatorVersion "abc" "2025-01-01") = Ok rep' /\
        (stateUpdateHashOk rep' = true <-> stateUpdate_newHash etx = h).
Proof.
  eexists. split.
  - vm_compute. reflexivity.
  - apply state_hash_mismatch_flagged. vm_compute. reflexivity.
Defined.

(** C8. The compute-phase summary of a successful [computeFinalData]:
    "skipped" exactly for a skipped phase; otherwise the exit code is the
    compute phase's when non-zero, else the action phase's result code,
    else 0. *)
Theorem compute_phase_summary `{E : Env} res balanceBefore fd :
  computeFinalData res balanceBefore = Ok fd ->
  exists computePhase actionPhase,
    description (fd_emulatedTx fd) = DescrGeneric computePhase actionPhase /\
    (fd_computeInfo fd = CISkipped <-> exists reason, computePhase = ComputeSkipped reason) /\
    forall success exitCode vmSteps gasUsed gasFees,
      computePhase = ComputeVm success exitCode vmSteps gasUsed gasFees ->
      fd_computeInfo fd =
        CIVm success
          (if negb (Z.eqb exitCode 0) then exitCode
           else match actionPhase with Some ap => resultCode ap | None => 0 end)
          vmSteps gasUsed gasFees.
Proof.
  intros H. destruct (computeFinalData_Ok _ _ _ H) as [_ [cp [ap [Hd Hci]]]].
  exists cp, ap. split; [exact Hd |]. rewrite Hci. split.
  - destruct cp as [reason | s e st gu gf].
    + split; [intros _; exists reason; reflexivity | reflexivity].
    + split; [discriminate | intros [reason Hr]; discriminate].
  - intros s e st gu gf ->.
    destruct (Z.eqb e 0); simpl; [destruct ap |]; reflexivity.
Qed.

Lemma compute_phase_summary_witness :
  exists fd,
    @computeFinalData demoEnv (mkEmulationResultSuccess "emutx9" "snap2" "" None) 1000 = Ok fd /\
    exists computePhase actionPhase,
      description (fd_emulatedTx fd) = DescrGeneric computePhase actionPhase /\
      (fd_computeInfo fd = CISkipped <-> exists reason, computePhase = ComputeSkipped reason) /\
      forall success exitCode vmSteps gasUsed gasFees,
        computePhase = ComputeVm success exitCode vmSteps gasUsed gasFees ->
        fd_computeInfo fd =
          CIVm success
            (if negb (Z.eqb exitCode 0) then exitCode
             else match actionPhase with Some ap => resultCode ap | None => 0 end)
            vmSteps gasUsed gasFees.
Proof.
  eexists. split.
  - vm_compute. reflexivity.
  - apply (@compute_phase_summary demoEnv (mkEmulationResultSuccess "emutx9" "snap2" "" None) 1000).
    vm_compute. reflexivity.
Defined.

(* ------------------------------------------------------------------ *)
(** ** The library scanner *)

(** C4 (failing input). When the account's own code is a library
    reference, the StateInit code is not scanned: only library 1 is
    fetched and registered, library 2 is neither fetched nor in the
    dictionary handed to the executor. *)
Theorem collectUsedLibraries_skips_stateinit :
  @collectUsedLibraries demoEnv false accountWithLib1 txDeployingLib2 [] [] =
    (Ok (Some (<[1 := libCode1]> ∅), Some libCode1), [EvGetLibrary 1]) /\
  @addMaybeExoticLibrary demoEnv false ∅ (Some (libraryCell 2)) [] =
    (Ok (<[2 := libCode2]> ∅, Some libCode2), [EvGetLibrary 2]).
Proof. split; vm_compute; reflexivity. Qed.

(* ------------------------------------------------------------------ *)
(** ** The replayer *)

(** C5. Replaying no transaction returns the starting balance and
    snapshot and leaves the trace unchanged, whatever [emulate] is: the
    executor is not called. *)
Theorem replay_empty_identity `{E : Env} prevBalance emulate shardAccountBase64 tr :
  emulatePreviousTransactions prevBalance [] emulate shardAccountBase64 tr =
    (Ok (prevBalance, shardAccountBase64), tr).
Proof. reflexivity. Qed.

Lemma emulateLoop_replays `{E : Env} cfg libs seed b s txs b' s' ev :
  replays cfg libs seed b s txs b' s' ev ->
  forall tr,
    emulateLoop (snd (prepareEmulator cfg libs seed)) b txs s tr = (Ok (b', s'), tr ++ ev).
Proof.
  induction 1 as [b s | b s tx rest m res ok sa b' s' ev Hm Hrun Hres Hsa _ IH]; intros tr.
  - simpl. rewrite app_nil_r. reflexivity.
  - cbn [emulateLoop snd prepareEmulator]. rewrite Hm.
    unfold mbind at 1, m_bind at 1. rewrite bind_emit, Hrun. simpl.
    rewrite Hres. rewrite Hsa, bind_lift_Ok. rewrite IH.
    rewrite <- app_assoc. reflexivity.
Qed.

Lemma emulateLoop_replays_app `{E : Env} cfg libs seed b s pre b1 s1 ev :
  replays cfg libs seed b s pre b1 s1 ev ->
  forall rest tr,
    emulateLoop (snd (prepareEmulator cfg libs seed)) b (pre ++ rest) s tr =
    emulateLoop (snd (prepareEmulator cfg libs seed)) b1 rest s1 (tr ++ ev).
Proof.
  induction 1 as [b s | b s tx rest' m res ok sa b' s' ev Hm Hrun Hres Hsa _ IH];
    intros rest tr.
  - simpl. rewrite app_nil_r. reflexivity.
  - simpl app. cbn [emulateLoop snd prepareEmulator]. rewrite Hm.
    unfold mbind at 1, m_bind at 1. rewrite bind_emit, Hrun. simpl.
    rewrite Hres. rewrite Hsa, bind_lift_Ok. rewrite IH.
    rewrite <- app_assoc. reflexivity.
Qed.

(** C6. Replaying a non-empty sequence with the executor helper of
    [prepareEmulator]: (1) when every step succeeds, each step runs on the
    snapshot the previous one returned and the result is the last
    snapshot with the balance read from it ([replays]); (2) at the first
    step the executor reports as failed, the replay throws an error
    carrying that transaction's logical time and both log streams, and
    no later transaction reaches the executor. *)
Theorem replay_fail_fast `{E : Env} cfg libs seed :
  (forall b s txs b' s' ev tr,
     replays cfg libs seed b s txs b' s' ev -> txs <> [] ->
     emulatePreviousTransactions b txs (snd (prepareEmulator cfg libs seed)) s tr =
       (Ok (b', s'), tr ++ ev)) /\
  (forall b s pre b1 s1 ev tx m res err post tr,
     replays cfg libs seed b s pre b1 s1 ev ->
     inMessage tx = Some m ->
     runTransaction cfg libs s1 m (tx_now tx) (tx_lt tx) seed = Ok res ->
     result res = EmuError err ->
     emulatePreviousTransactions b (pre ++ tx :: post) (snd (prepareEmulator cfg libs seed)) s tr =
       (Throw ("Transaction failed for lt: " +:+ Z_to_string (tx_lt tx) +:+
               ", logs: " +:+ logs res +:+ ", debugLogs: " +:+ debugLogs res),
        tr ++ ev ++ [EvEmulate (tx_lt tx) s1])).
Proof.
  split.
  - intros b s txs b' s' ev tr Hr Hne. unfold emulatePreviousTransactions.
    destruct txs as [| t ts]; [contradiction |]. simpl.
    apply (emulateLoop_replays _ _ _ _ _ _ _ _ _ Hr).
  - intros b s pre b1 s1 ev tx m res err post tr Hr Hm Hrun Hres.
    unfold emulatePreviousTransactions.
    rewrite length_app. simpl. rewrite Nat.add_succ_r. simpl.
    rewrite (emulateLoop_replays_app _ _ _ _ _ _ _ _ _ Hr).
    cbn [emulateLoop snd prepareEmulator]. rewrite Hm.
    unfold mbind at 1, m_bind at 1. rewrite bind_emit, Hrun. simpl.
    rewrite Hres. rewrite <- app_assoc. reflexivity.
Qed.

Lemma replay_fail_fast_witness :
  @emulatePreviousTransactions demoEnv 1000 [prevTx 1]
      (snd (@prepareEmulator demoEnv "cfg" None "seed")) "snap0" [] =
    (Ok (900, "snap1"), [] ++ [EvEmulate 1 "snap0"]) /\
  @emulatePreviousTransactions demoEnv 1000 ([prevTx 1] ++ prevTx 2 :: [prevTx 10])
      (snd (@prepareEmulator demoEnv "cfg" None "seed")) "snap0" [] =
    (Throw ("Transaction failed for lt: " +:+ Z_to_string 2 +:+
            ", logs: " +:+ "exec log 2" +:+ ", debugLogs: " +:+ "debug log 2"),
     [] ++ [EvEmulate 1 "snap0"] ++ [EvEmulate 2 "snap1"]).
Proof.
  assert (Hr : @replays demoEnv "cfg" None "seed" 1000 "snap0" [prevTx 1] 900 "snap1"
                 [EvEmulate 1 "snap0"]).
  { eapply (@replays_cons demoEnv); [reflexivity | vm_compute; reflexivity | reflexivity
    | vm_compute; reflexivity | apply (@replays_nil demoEnv)]. }
  split.
  - apply (proj1 (@replay_fail_fast demoEnv "cfg" None "seed")
             1000 "snap0" [prevTx 1] 900 "snap1" [EvEmulate 1 "snap0"] [] Hr).
    discriminate.
  - apply (proj2 (@replay_fail_fast demoEnv "cfg" None "seed")
             1000 "snap0" [prevTx 1] 900 "snap1" [EvEmulate 1 "snap0"] (prevTx 2)
             (demoMsg false None [])
             (mkEmulationResult (EmuError "bad") "exec log 2" "debug log 2") "bad"
             [prevTx 10] [] Hr); vm_compute; reflexivity.
Defined.

(* ------------------------------------------------------------------ *)
(** ** The logical-time lower bound *)

Lemma minLt_inner_fold (addrStr : string) (l : list TxInBlock) (acc : Z) :
  fold_left (fun minLt txInBlock =>
               if String.eqb (tib_account txInBlock) addrStr && (tib_lt txInBlock <? minLt)
               then tib_lt txInBlock else minLt) l acc =
  fold_left Z.min
    (map tib_lt (List.filter (fun t => String.eqb (tib_account t) addrStr) l)) acc.
Proof.
  revert acc; induction l as [| t l IH]; intros acc; simpl; [reflexivity |].
  destruct (String.eqb (tib_account t) addrStr); simpl; rewrite IH; [| reflexivity].
  f_equal. destruct (Z.ltb_spec (tib_lt t) acc); lia.
Qed.

Lemma fold_min_le (l : list Z) (x : Z) : fold_left Z.min l x <= x.
Proof.
  revert x; induction l as [| a l IH]; intros x; simpl; [lia |].
  specialize (IH (Z.min x a)). lia.
Qed.

Lemma fold_min_eq (l : list Z) (x : Z) :
  fold_left Z.min l x = x <-> Forall (fun v => x <= v) l.
Proof.
  revert x; induction l as [| a l IH]; intros x; simpl.
  - split; [constructor | reflexivity].
  - rewrite Forall_cons. destruct (Z.le_gt_cases x a) as [Hle | Hgt].
    + rewrite Z.min_l by lia. rewrite IH. tauto.
    + pose proof (fold_min_le l (Z.min x a)). split; [lia |]. intros [Ha _]; lia.
Qed.

(** C7. [computeMinLt] is the minimum of the target's logical time and
    the logical times of the shard-summary entries of the given account;
    it never exceeds the target's logical time, and equals it exactly
    when no such entry is earlier. *)
Theorem computeMinLt_is_min `{E : Env} tx address block :
  let matching :=
    map tib_lt (List.filter (fun t => String.eqb (tib_account t) (Address_toString address))
                  (block_entries block)) in
  computeMinLt tx address block = fold_left Z.min matching (tx_lt tx) /\
  computeMinLt tx address block <= tx_lt tx /\
  (computeMinLt tx address block = tx_lt tx <-> Forall (fun lt => tx_lt tx <= lt) matching).
Proof.
  intros matching.
  assert (Heq : computeMinLt tx address block = fold_left Z.min matching (tx_lt tx)).
  { unfold computeMinLt, matching, block_entries.
    generalize (tx_lt tx). induction (shards block) as [| sh shs IH]; intros acc;
      simpl; [reflexivity |].
    rewrite IH, minLt_inner_fold, List.filter_app, map_app, fold_left_app. reflexivity. }
  rewrite Heq. split; [reflexivity |]. split; [apply fold_min_le | apply fold_min_eq].
Qed.

(* ------------------------------------------------------------------ *)
(** ** Money sent *)

Lemma sentTotal_fold (l : list Message) (acc : Z) :
  fold_left (fun total msg =>
               match info msg with MsgInternal _ _ _ v => total + v | _ => total end) l acc =
  acc + fold_right Z.add 0 (internal_values l).
Proof.
  revert acc; induction l as [| m l IH]; intros acc; simpl; [lia |].
  rewrite IH. unfold internal_coins. destruct (info m); simpl; lia.
Qed.

(** C9. [sentTotal] is the sum of the coins of the internal outgoing
    messages: dropping every other outgoing message does not change it,
    and it is 0 unless some outgoing message is internal. *)
Theorem sentTotal_internal_sum (tx : Transaction) :
  calculateSentTotal tx = fold_right Z.add 0 (internal_values (outMessages tx)) /\
  calculateSentTotal tx =
    calculateSentTotal
      (set_outMessages tx
         (List.filter (fun m => match internal_coins m with Some _ => true | None => false end)
            (outMessages tx))) /\
  (calculateSentTotal tx = 0 \/ Exists (fun m => internal_coins m <> None) (outMessages tx)).
Proof.
  unfold calculateSentTotal. rewrite !sentTotal_fold. simpl.
  split; [lia |]. split.
  - f_equal. f_equal. induction (outMessages tx) as [| m l IH]; [reflexivity |].
    simpl. destruct (internal_coins m) eqn:Hm; simpl; rewrite ?Hm, <- ?IH; reflexivity.
  - induction (outMessages tx) as [| m l IH]; [left; reflexivity |].
    destruct (internal_coins m) eqn:Hm.
    + right. constructor. congruence.
    + destruct IH as [IH | IH].
      * left. simpl. rewrite Hm. exact IH.
      * right. constructor 2. exact IH.
Qed.

(* ------------------------------------------------------------------ *)
(** ** The in-message opcode *)

(** C10. The in-message opcode of a transaction the chain delivers. On
    chain a bounced internal message always carries the 32-bit bounce
    prefix, so its body has at least 32 bits (the hypothesis). Then: no
    in-message gives [undefined]; for a bounced internal in-message the
    first 32 bits are skipped; the opcode is the next 32 bits when at least
    32 remain, and [undefined] otherwise. [txOpcode] never throws here. *)
Theorem txOpcode_receivable (tx : Transaction) :
  (forall m, inMessage tx = Some m ->
     match info m with MsgInternal b _ _ _ => b | _ => false end = true ->
     (32 <= length (cell_bits (body m)))%nat) ->
  txOpcode tx =
  match inMessage tx with
  | None => Ok None
  | Some m =>
      let rest := if match info m with MsgInternal b _ _ _ => b | _ => false end
                  then skipn 32 (cell_bits (body m)) else cell_bits (body m) in
      if Nat.leb 32 (length rest) then Ok (Some (bits_to_Z (firstn 32 rest))) else Ok None
  end.
Proof.
  intros Hrecv. unfold txOpcode. destruct (inMessage tx) as [m |]; [| reflexivity].
  specialize (Hrecv m eq_refl).
  set (bs := cell_bits (body m)) in *.
  destruct (match info m with MsgInternal b _ _ _ => b | _ => false end).
  - rewrite (loadUint_ok 32 bs) by (apply Nat.leb_le; exact (Hrecv eq_refl)).
    cbv beta iota delta [mbind outcome_bind].
    destruct (Nat.leb 32 (length (skipn 32 bs))) eqn:Hl; [| reflexivity].
    rewrite loadUint_ok by exact Hl. reflexivity.
  - cbv beta iota delta [mbind outcome_bind].
    destruct (Nat.leb 32 (length bs)) eqn:Hl; [| reflexivity].
    rewrite loadUint_ok by exact Hl. reflexivity.
Qed.

Lemma txOpcode_receivable_witness :
  txOpcode (demoTx 10 (demoMsg true None (Z_to_bits 64 (Z.lor (Z.shiftl 4294967295 32) 7)))
              descr9) = Ok (Some 7) /\
  txOpcode (demoTx 10 (demoMsg true None (Z_to_bits 48 (Z.lor (Z.shiftl 4294967295 16) 7)))
              descr9) = Ok None.
Proof.
  split.
  - rewrite (txOpcode_receivable _).
    + vm_compute. reflexivity.
    + intros m Hm _. injection Hm as <-. apply Nat.leb_le. vm_compute. reflexivity.
  - rewrite (txOpcode_receivable _).
    + vm_compute. reflexivity.
    + intros m Hm _. injection Hm as <-. apply Nat.leb_le. vm_compute. reflexivity.
Defined.

(* ------------------------------------------------------------------ *)
(** ** Integer literals: [base64ToBigint] and the shard parameter *)

Lemma list_ascii_of_string_app (s1 s2 : string) :
  String.list_ascii_of_string (s1 +:+ s2) =
  String.list_ascii_of_string s1 ++ String.list_ascii_of_string s2.
Proof. induction s1 as [| c s1 IH]; simpl; [reflexivity | rewrite IH; reflexivity]. Qed.

Lemma ltrim_js_nonspace (l : list ascii) :
  Forall (fun c => is_js_space c = false) l -> ltrim_js l = l.
Proof. intros H. destruct H as [| c l Hc _]; simpl; [| rewrite Hc]; reflexivity. Qed.

Lemma trim_js_nonspace (l : list ascii) :
  Forall (fun c => is_js_space c = false) l -> trim_js l = l.
Proof.
  intros H. unfold trim_js. rewrite (ltrim_js_nonspace l H).
  rewrite (ltrim_js_nonspace (rev l)) by (apply Forall_rev; exact H).
  apply rev_involutive.
Qed.

Lemma Z_lt_16_cases (d : Z) : 0 <= d < 16 ->
  exists n : nat, d = Z.of_nat n /\ (n < 16)%nat.
Proof. intros Hd. exists (Z.to_nat d). split; lia. Qed.

Lemma hex_char_digit (d : Z) : 0 <= d < 16 -> digit_value (hex_char d) = Some d.
Proof.
  intros Hd. destruct (Z_lt_16_cases d Hd) as [n [-> Hn]].
  do 16 (destruct n as [| n]; [reflexivity |]). lia.
Qed.

Lemma hex_char_nonspace (d : Z) : 0 <= d < 16 -> is_js_space (hex_char d) = false.
Proof.
  intros Hd. destruct (Z_lt_16_cases d Hd) as [n [-> Hn]].
  do 16 (destruct n as [| n]; [reflexivity |]). lia.
Qed.

Lemma byte_Z_bounds (b : Byte.byte) : 0 <= Z.of_N (Byte.to_N b) < 256.
Proof. pose proof (Byte.to_N_bounded b). lia. Qed.

Lemma hex_bytes_value (buf : list Byte.byte) (acc : Z) :
  digits_value 16 acc (concat (map byte_hex buf)) =
  Some (fold_left (fun acc b => acc * 256 + Z.of_N (Byte.to_N b)) buf acc).
Proof.
  revert acc; induction buf as [| b buf IH]; intros acc; [reflexivity |].
  pose proof (byte_Z_bounds b) as Hb. set (n := Z.of_N (Byte.to_N b)) in *.
  assert (Hhi : 0 <= n / 16 < 16) by (split; [apply Z.div_pos | apply Z.div_lt_upper_bound]; lia).
  assert (Hlo : 0 <= n mod 16 < 16) by (apply Z.mod_pos_bound; lia).
  cbn [map concat fold_left]. unfold byte_hex at 1. fold n. cbn [app digits_value].
  rewrite (hex_char_digit _ Hhi).
  replace (n / 16 <? 16) with true by (symmetry; apply Z.ltb_lt; lia).
  rewrite (hex_char_digit _ Hlo).
  replace (n mod 16 <? 16) with true by (symmetry; apply Z.ltb_lt; lia).
  rewrite IH. do 2 f_equal. pose proof (Z.div_mod n 16). lia.
Qed.

Lemma byte_hex_nonspace (buf : list Byte.byte) :
  Forall (fun c => is_js_space c = false) (concat (map byte_hex buf)).
Proof.
  induction buf as [| b buf IH]; simpl; [constructor |].
  pose proof (byte_Z_bounds b).
  constructor; [apply hex_char_nonspace; split; [apply Z.div_pos | apply Z.div_lt_upper_bound]; lia |].
  constructor; [apply hex_char_nonspace, Z.mod_pos_bound; lia | exact IH].
Qed.

(** X1. [base64ToBigint] reads the decoded bytes as one big-endian
    number through the literal ["0x" + hex], and throws a SyntaxError
    exactly when the decoded buffer is empty (the literal ["0x"] has no
    digit), e.g. for the empty base64 string. *)
Theorem base64ToBigint_value (Buffer_from_base64 : string -> list Byte.byte) (b64 : string) :
  base64ToBigint Buffer_from_base64 b64 =
  match Buffer_from_base64 b64 with
  | [] => Throw "SyntaxError: Cannot convert 0x to a BigInt"
  | buf => Ok (bytes_to_Z buf)
  end.
Proof.
  unfold base64ToBigint. destruct (Buffer_from_base64 b64) as [| b buf]; [reflexivity |].
  unfold BigInt, StringToBigInt, Buffer_toString_hex.
  rewrite list_ascii_of_string_app, String.list_ascii_of_string_of_list_ascii.
  rewrite trim_js_nonspace.
  - cbn [String.list_ascii_of_string app].
    replace ((("0" =? "0")%char && (("x" =? "x")%char || ("x" =? "X")%char))) with true
      by reflexivity.
    cbn iota. unfold digits_nonempty.
    destruct (concat (map byte_hex (b :: buf))) as [| c l] eqn:Hc; [discriminate |].
    rewrite <- Hc, hex_bytes_value. reflexivity.
  - constructor; [reflexivity |]. constructor; [reflexivity |]. apply byte_hex_nonspace.
Qed.

Lemma hex_digits_rev_value (f : nat) (n : Z) (acc : list ascii) :
  0 <= n < 16 ^ Z.of_nat f ->
  digits_value 16 0 (hex_digits_rev f n acc) = digits_value 16 n acc.
Proof.
  revert n acc; induction f as [| f IH]; intros n acc Hn.
  - simpl in Hn. replace n with 0 by lia. reflexivity.
  - assert (Hlo : 0 <= n mod 16 < 16) by (apply Z.mod_pos_bound; lia).
    cbn [hex_digits_rev]. destruct (Z.ltb_spec n 16) as [Hlt | Hge].
    + cbn [digits_value]. rewrite (hex_char_digit _ Hlo).
      replace (n mod 16 <? 16) with true by (symmetry; apply Z.ltb_lt; lia).
      rewrite Z.mod_small by lia. reflexivity.
    + rewrite IH.
      * cbn [digits_value]. rewrite (hex_char_digit _ Hlo).
        replace (n mod 16 <? 16) with true by (symmetry; apply Z.ltb_lt; lia).
        f_equal. pose proof (Z.div_mod n 16). lia.
      * rewrite Nat2Z.inj_succ, Z.pow_succ_r in Hn by lia.
        split; [apply Z.div_pos; lia | apply Z.div_lt_upper_bound; lia].
Qed.

Lemma hex_digits_rev_shape (f : nat) (n : Z) (acc : list ascii) :
  0 <= n ->
  Forall (fun c => is_js_space c = false) acc ->
  Forall (fun c => is_js_space c = false) (hex_digits_rev (S f) n acc) /\
  hex_digits_rev (S f) n acc <> [].
Proof.
  revert n acc; induction f as [| f IH]; intros n acc Hn Hacc.
  - simpl. destruct (n <? 16).
    + split; [constructor; [apply hex_char_nonspace, Z.mod_pos_bound; lia | exact Hacc] | discriminate].
    + split; [constructor; [apply hex_char_nonspace, Z.mod_pos_bound; lia | exact Hacc] | discriminate].
  - cbn [hex_digits_rev]. destruct (n <? 16).
    + split; [constructor; [apply hex_char_nonspace, Z.mod_pos_bound; lia | exact Hacc] | discriminate].
    + apply IH; [apply Z.div_pos; lia |].
      constructor; [apply hex_char_nonspace, Z.mod_pos_bound; lia | exact Hacc].
Qed.

Lemma log2_fuel_bound (n : Z) : 0 <= n -> n < 16 ^ Z.of_nat (Z.to_nat (Z.log2 n) + 1).
Proof.
  intros Hn. pose proof (Z.log2_nonneg n).
  rewrite Nat2Z.inj_add, Z2Nat.id by lia. simpl (Z.of_nat 1).
  assert (H2 : n < 2 ^ (Z.log2 n + 1)).
  { destruct (Z.eq_dec n 0) as [-> | Hne]; [reflexivity |].
    pose proof (Z.log2_spec n ltac:(lia)). rewrite <- Z.add_1_r in H0. lia. }
  eapply Z.lt_le_trans; [exact H2 |]. apply Z.pow_le_mono_l. lia.
Qed.

(** X2. The shard sent to toncenter's blocks endpoint is the shard id
    modulo 2^64: for every shard id of 64 bits (signed or unsigned), the
    parameter ["0x" + shardUint.toString(16)], read back as a literal, is
    the unsigned 64-bit two's-complement value of the id, so a negative
    signed id [s] becomes [s + 2^64]. *)
Theorem findShardBlockForTx_shardParam_value (shardInt : Z) :
  - 2 ^ 64 <= shardInt < 2 ^ 64 ->
  BigInt (findShardBlockForTx_shardParam shardInt) = Ok (shardInt mod 2 ^ 64) /\
  0 <= shardInt mod 2 ^ 64 < 2 ^ 64.
Proof.
  intros Hs.
  assert (Hu : findShardBlockForTx_shardUint shardInt = shardInt mod 2 ^ 64).
  { unfold findShardBlockForTx_shardUint. destruct (Z.ltb_spec shardInt 0).
    - apply (Z.mod_unique shardInt (2 ^ 64) (-1)); [left |]; lia.
    - symmetry. apply Z.mod_small. lia. }
  assert (Hb : 0 <= shardInt mod 2 ^ 64 < 2 ^ 64) by (apply Z.mod_pos_bound; lia).
  split; [| exact Hb].
  unfold findShardBlockForTx_shardParam, BigInt_toString16. rewrite Hu.
  replace (shardInt mod 2 ^ 64 <? 0) with false by (symmetry; apply Z.ltb_ge; lia).
  set (u := shardInt mod 2 ^ 64) in *.
  unfold BigInt, StringToBigInt.
  rewrite list_ascii_of_string_app, String.list_ascii_of_string_of_list_ascii.
  rewrite Nat.add_1_r.
  destruct (hex_digits_rev_shape (Z.to_nat (Z.log2 u)) u [] ltac:(lia) (List.Forall_nil _))
    as [Hsp Hne].
  rewrite trim_js_nonspace by (constructor; [reflexivity |]; constructor; [reflexivity | exact Hsp]).
  cbn [String.list_ascii_of_string app].
  replace ((("0" =? "0")%char && (("x" =? "x")%char || ("x" =? "X")%char))) with true
    by reflexivity.
  cbn iota. unfold digits_nonempty.
  destruct (hex_digits_rev (S (Z.to_nat (Z.log2 u))) u []) as [| c l] eqn:Hd;
    [contradiction |].
  rewrite <- Hd, hex_digits_rev_value; [reflexivity |].
  rewrite <- Nat.add_1_r. split; [lia | apply log2_fuel_bound; lia].
Qed.

Lemma findShardBlockForTx_shardParam_value_witness :
  - 2 ^ 64 <= - 9223372036854775808 < 2 ^ 64 /\
  BigInt (findShardBlockForTx_shardParam (- 9223372036854775808)) =
    Ok (- 9223372036854775808 mod 2 ^ 64) /\
  0 <= - 9223372036854775808 mod 2 ^ 64 < 2 ^ 64.
Proof.
  split; [lia | apply (findShardBlockForTx_shardParam_value (- 9223372036854775808)); lia].
Defined.

(* ------------------------------------------------------------------ *)
(** ** Running the effectful steps *)

Lemma bind_inv {A B} (c : M A) (f : A -> M B) tr b tr' :
  (c ≫= f) tr = (Ok b, tr') -> exists a tr1, c tr = (Ok a, tr1) /\ f a tr1 = (Ok b, tr').
Proof.
  unfold mbind, m_bind. destruct (c tr) as [[a | m] tr1]; intros H; [eauto | discriminate].
Qed.

Lemma lift_inv {A} (o : Outcome A) tr a tr' :
  lift o tr = (Ok a, tr') -> o = Ok a /\ tr' = tr.
Proof. unfold lift. intros H. injection H as -> <-. auto. Qed.

Lemma getLibraryByHash_run `{E : Env} testnet h tr :
  getLibraryByHash testnet h tr =
  (match getLibraryByHashToncenter testnet h with
   | Ok c => Ok c
   | Throw _ => getLibraryByHashDton testnet h
   end, tr ++ [EvGetLibrary h]).
Proof.
  unfold getLibraryByHash. rewrite bind_emit. unfold catch, lift.
  destruct (getLibraryByHashToncenter testnet h); reflexivity.
Qed.

Lemma addMaybeExoticLibrary_cases `{E : Env} testnet libs code tr libs' lc tr' :
  addMaybeExoticLibrary testnet libs code tr = (Ok (libs', lc), tr') ->
  (libs' = libs /\ lc = None /\ tr' = tr) \/
  (exists h c, libs' = <[h := c]> libs /\ lc = Some c /\ tr' = tr ++ [EvGetLibrary h]).
Proof.
  destruct code as [code |].
  - rewrite addMaybeExoticLibrary_Some.
    destruct (_ && _).
    + intros H. apply bind_inv in H as (c & tr1 & Hg & Hm).
      rewrite getLibraryByHash_run in Hg. injection Hg as _ <-.
      unfold mret, m_ret in Hm. injection Hm as <- <- <-. right. eauto.
    + intros H. injection H as <- <- <-. left. auto.
  - unfold addMaybeExoticLibrary, mret, m_ret. intros H. injection H as <- <- <-. left. auto.
Qed.

Lemma collectUsedLibraries_cases `{E : Env} testnet acc tx addl tr libs lc tr' :
  collectUsedLibraries testnet acc tx addl tr = (Ok (libs, lc), tr') ->
  exists scanned,
    ((scanned = ∅ /\ lc = None /\ tr' = tr) \/
     (exists h c, scanned = <[h := c]> ∅ /\ lc = Some c /\ tr' = tr ++ [EvGetLibrary h])) /\
    libs =
      (let m := fold_left (fun libs '(hash, lib) => <[hash := lib]> libs) addl scanned in
       if Nat.eqb (size m) 0 then None else Some m).
Proof.
  unfold collectUsedLibraries. intros H.
  apply bind_inv in H as ([l1 c1] & tr1 & H1 & H).
  assert (Hs1 : (l1 = ∅ /\ c1 = None /\ tr1 = tr) \/
                (exists h c, l1 = <[h := c]> ∅ /\ c1 = Some c /\ tr1 = tr ++ [EvGetLibrary h])).
  { destruct (option_map state (account acc)) as [[| code data | sh] |];
      try (unfold mret, m_ret in H1; injection H1 as <- <- <-; left; auto).
    apply addMaybeExoticLibrary_cases in H1. exact H1. }
  clear H1. cbn beta iota in H.
  apply bind_inv in H as ([l2 c2] & tr2 & H2 & H).
  assert (Hs2 : (l2 = ∅ /\ c2 = None /\ tr2 = tr) \/
                (exists h c, l2 = <[h := c]> ∅ /\ c2 = Some c /\ tr2 = tr ++ [EvGetLibrary h])).
  { destruct (inMessage tx ≫= init) as [i |].
    - destruct c1 as [c1 |].
      + unfold mret, m_ret in H2. injection H2 as <- <- <-. exact Hs1.
      + destruct Hs1 as [(-> & _ & ->) | (h & c & _ & Hc & _)]; [| discriminate].
        apply addMaybeExoticLibrary_cases in H2.
        destruct H2 as [(-> & -> & ->) | (h & c & -> & -> & ->)]; [left | right; eauto]; auto.
    - unfold mret, m_ret in H2. injection H2 as <- <- <-. exact Hs1. }
  clear H2 Hs1. cbn beta iota zeta in H.
  exists l2. destruct (Nat.eqb _ 0); unfold mret, m_ret in H; injection H as <- <- <-;
    (split; [exact Hs2 | reflexivity]).
Qed.

Lemma fold_insert_lookup (l : list (Z * Cell)) (m : gmap Z Cell) (h : Z) :
  fold_left (fun libs '(hash, lib) => <[hash := lib]> libs) l m !! h =
  match assoc_last h l with Some c => Some c | None => m !! h end.
Proof.
  revert m; induction l as [| [k v] l IH]; intros m; [reflexivity |].
  simpl. rewrite IH. destruct (assoc_last h l); [reflexivity |].
  destruct (Z.eqb_spec k h) as [-> | Hne].
  - apply lookup_insert_eq.
  - apply lookup_insert_ne. exact Hne.
Qed.

Lemma libs_lookup_size (m : gmap Z Cell) (h : Z) :
  libs_lookup (if Nat.eqb (size m) 0 then None else Some m) h = m !! h.
Proof.
  destruct (Nat.eqb_spec (size m) 0) as [H0 | H0]; [| reflexivity].
  apply map_size_empty_inv in H0. subst m. simpl. symmetry. apply lookup_empty.
Qed.

Lemma libs_size_not_empty (m : gmap Z Cell) :
  (if Nat.eqb (size m) 0 then None else Some m) <> Some ∅.
Proof.
  destruct (Nat.eqb_spec (size m) 0) as [H0 | H0]; [discriminate |].
  intros Heq. injection Heq as ->. apply H0. apply map_size_empty.
Qed.

(** X3. The library dictionary [collectUsedLibraries] hands to the
    executor: it makes at most one library request; the dictionary maps
    every hash of [additionalLibs] to the last library given for it, and
    every other hash to the one fetched library, if any, which is also the
    loaded code returned; there is no dictionary (not an empty one) when
    it would have no entry. *)
Theorem collectUsedLibraries_dictionary `{E : Env} testnet acc tx additionalLibs tr
    libs loadedCode tr' :
  collectUsedLibraries testnet acc tx additionalLibs tr = (Ok (libs, loadedCode), tr') ->
  libs <> Some ∅ /\
  ((tr' = tr /\ loadedCode = None /\
    forall h, libs_lookup libs h = assoc_last h additionalLibs) \/
   (exists h0 c0, tr' = tr ++ [EvGetLibrary h0] /\ loadedCode = Some c0 /\
    forall h, libs_lookup libs h =
      match assoc_last h additionalLibs with
      | Some c => Some c
      | None => if Z.eqb h h0 then Some c0 else None
      end)).
Proof.
  intros H. apply collectUsedLibraries_cases in H as (scanned & Hs & ->).
  cbn zeta. split; [apply libs_size_not_empty |].
  destruct Hs as [(-> & -> & ->) | (h0 & c0 & -> & -> & ->)].
  - left. split; [reflexivity |]. split; [reflexivity |]. intros h.
    rewrite libs_lookup_size, fold_insert_lookup.
    destruct (assoc_last h additionalLibs); [reflexivity |]. apply lookup_empty.
  - right. exists h0, c0. split; [reflexivity |]. split; [reflexivity |]. intros h.
    rewrite libs_lookup_size, fold_insert_lookup.
    destruct (assoc_last h additionalLibs); [reflexivity |].
    destruct (Z.eqb_spec h h0) as [-> | Hne].
    + apply lookup_insert_eq.
    + rewrite lookup_insert_ne by congruence. apply lookup_empty.
Qed.

Lemma collectUsedLibraries_dictionary_witness :
  exists libs loadedCode tr',
    @collectUsedLibraries demoEnv false accountWithLib1 txDeployingLib2 [(2, libCode2)] [] =
      (Ok (libs, loadedCode), tr') /\
    libs <> Some ∅ /\
    ((tr' = [] /\ loadedCode = None /\
      forall h, libs_lookup libs h = assoc_last h [(2, libCode2)]) \/
     (exists h0 c0, tr' = [] ++ [EvGetLibrary h0] /\ loadedCode = Some c0 /\
      forall h, libs_lookup libs h =
        match assoc_last h [(2, libCode2)] with
        | Some c => Some c
        | None => if Z.eqb h h0 then Some c0 else None
        end)).
Proof.
  do 3 eexists. split.
  - vm_compute. reflexivity.
  - apply (@collectUsedLibraries_dictionary demoEnv false accountWithLib1 txDeployingLib2
             [(2, libCode2)] []).
    vm_compute. reflexivity.
Defined.

(* ------------------------------------------------------------------ *)
(** ** Successful replays and the target run *)

Lemma emulateLoop_success `{E : Env} cfg libs seed txs :
  forall b s tr b' s' tr',
    emulateLoop (snd (prepareEmulator cfg libs seed)) b txs s tr = (Ok (b', s'), tr') ->
    exists ev, replays cfg libs seed b s txs b' s' ev /\ tr' = tr ++ ev.
Proof.
  induction txs as [| tx rest IH]; intros b s tr b' s' tr' H.
  - simpl in H. unfold mret, m_ret in H. injection H as <- <- <-.
    exists []. split; [constructor | rewrite app_nil_r; reflexivity].
  - cbn [emulateLoop snd prepareEmulator] in H.
    apply bind_inv in H as (res & tr1 & Hem & H).
    destruct (inMessage tx) as [m |] eqn:Hm; [| discriminate].
    rewrite bind_emit in Hem. apply lift_inv in Hem as [Hrun ->].
    destruct (result res) as [ok | err] eqn:Hres; [| discriminate].
    apply bind_inv in H as (sa & tr2 & Hsa & H). apply lift_inv in Hsa as [Hsa ->].
    apply IH in H as (ev & Hr & ->).
    exists (EvEmulate (tx_lt tx) s :: ev). split.
    + eapply replays_cons; eauto.
    + rewrite <- app_assoc. reflexivity.
Qed.

Lemma replays_emulations `{E : Env} cfg libs seed b s txs b' s' ev :
  replays cfg libs seed b s txs b' s' ev ->
  map fst (emulations ev) = map tx_lt txs.
Proof.
  induction 1 as [b s | b s tx rest m res ok sa b' s' ev _ _ _ _ _ IH]; [reflexivity |].
  simpl. rewrite IH. reflexivity.
Qed.

Lemma emulatePreviousTransactions_replays `{E : Env} cfg libs seed b txs s tr b' s' tr' :
  emulatePreviousTransactions b txs (snd (prepareEmulator cfg libs seed)) s tr =
    (Ok (b', s'), tr') ->
  exists ev, replays cfg libs seed b s txs b' s' ev /\ tr' = tr ++ ev /\
    map fst (emulations ev) = map tx_lt txs.
Proof.
  unfold emulatePreviousTransactions. intros H.
  destruct (Nat.eqb_spec (length txs) 0) as [H0 | H0].
  - apply length_zero_iff_nil in H0. subst txs.
    unfold mret, m_ret in H. injection H as <- <- <-.
    exists []. split; [constructor | split; [rewrite app_nil_r |]; reflexivity].
  - apply emulateLoop_success in H as (ev & Hr & ->).
    exists ev. split; [exact Hr |]. split; [reflexivity |].
    exact (replays_emulations _ _ _ _ _ _ _ _ _ Hr).
Qed.

(** X4. A replay that returns a value has run every transaction, in the
    given order, each once, through the executor, each successfully and
    on the snapshot the previous one returned ([replays]); the balance and
    snapshot returned are the last ones. Together with C6 this makes
    [replays] an exact description of the successful replays. *)
Theorem replay_success_replays `{E : Env} cfg libs seed b txs s tr b' s' tr' :
  emulatePreviousTransactions b txs (snd (prepareEmulator cfg libs seed)) s tr =
    (Ok (b', s'), tr') ->
  exists ev, replays cfg libs seed b s txs b' s' ev /\ tr' = tr ++ ev /\
    map fst (emulations ev) = map tx_lt txs.
Proof. apply emulatePreviousTransactions_replays. Qed.

Lemma replay_success_replays_witness :
  @emulatePreviousTransactions demoEnv 1000 [prevTx 1; prevTx 10]
    (snd (@prepareEmulator demoEnv "cfg" None "seed")) "snap0" [] =
    (Ok (800, "snap2"), [EvEmulate 1 "snap0"; EvEmulate 10 "snap1"]) /\
  exists ev, @replays demoEnv "cfg" None "seed" 1000 "snap0" [prevTx 1; prevTx 10] 800 "snap2" ev /\
    [EvEmulate 1 "snap0"; EvEmulate 10 "snap1"] = [] ++ ev /\
    map fst (emulations ev) = map tx_lt [prevTx 1; prevTx 10].
Proof.
  split.
  - vm_compute. reflexivity.
  - apply (@replay_success_replays demoEnv "cfg" None "seed" 1000 [prevTx 1; prevTx 10] "snap0" []).
    vm_compute. reflexivity.
Defined.








(** X6. [retraceBaseTx] gives up before any library request or emulation
    when the transaction is not found, when its shard block is not found,
    or when the shard block's root hash is not the one the transaction
    names: it throws the matching error with the trace of external calls
    unchanged. *)
Theorem retraceBaseTx_early_exits `{E : Env} testnet baseTx additionalLibs tr :
  (findRawTxByHash testnet baseTx = Ok [] ->
   retraceBaseTx testnet baseTx additionalLibs tr = (Throw "Cannot find transaction info", tr)) /\
  (forall raw rest,
     findRawTxByHash testnet baseTx = Ok (raw :: rest) ->
     findShardBlockForTx testnet raw = Ok None ->
     retraceBaseTx testnet baseTx additionalLibs tr =
       (Throw "Cannot find shard block for transaction", tr)) /\
  (forall raw rest block,
     findRawTxByHash testnet baseTx = Ok (raw :: rest) ->
     findShardBlockForTx testnet raw = Ok (Some block) ->
     root_hash block <> rawtx_block_rootHash raw ->
     retraceBaseTx testnet baseTx additionalLibs tr =
       (Throw ("root_hash mismatch in mc_seqno getter: " +:+ rawtx_block_rootHash raw +:+
               " != " +:+ root_hash block), tr)).
Proof.
  unfold retraceBaseTx. split; [| split].
  - intros Hr. rewrite Hr. reflexivity.
  - intros raw rest Hr Hb. rewrite Hr, bind_lift_Ok, Hb. reflexivity.
  - intros raw rest block Hr Hb Hne. rewrite Hr, bind_lift_Ok, Hb, bind_lift_Ok.
    destruct (String.eqb_spec (root_hash block) (rawtx_block_rootHash raw)); [contradiction |].
    reflexivity.
Qed.

Lemma retraceBaseTx_early_exits_witness :
  @retraceBaseTx (demoEnvWith (Ok []) (Ok None) (fun _ => []))
      false (mkBaseTxInfo 10 [true] addrB) [] [] = (Throw "Cannot find transaction info", []) /\
  @retraceBaseTx (demoEnvWith (Ok [mkRawTx chainTx "root"]) (Ok None) (fun _ => []))
      false (mkBaseTxInfo 10 [true] addrB) [] [] =
    (Throw "Cannot find shard block for transaction", []) /\
  @retraceBaseTx (demoEnvWith (Ok [mkRawTx chainTx "root"])
                    (Ok (Some (mkShardBlock "other" 100 "seed"))) (fun _ => []))
      false (mkBaseTxInfo 10 [true] addrB) [] [] =
    (Throw ("root_hash mismatch in mc_seqno getter: " +:+ "root" +:+ " != " +:+ "other"), []).
Proof.
  split; [| split].
  - apply (proj1 (@retraceBaseTx_early_exits (demoEnvWith (Ok []) (Ok None) (fun _ => []))
                    false (mkBaseTxInfo 10 [true] addrB) [] [])).
    reflexivity.
  - apply (proj1 (proj2 (@retraceBaseTx_early_exits
                           (demoEnvWith (Ok [mkRawTx chainTx "root"]) (Ok None) (fun _ => []))
                           false (mkBaseTxInfo 10 [true] addrB) [] []))
             (mkRawTx chainTx "root") []); reflexivity.
  - apply (proj2 (proj2 (@retraceBaseTx_early_exits
                           (demoEnvWith (Ok [mkRawTx chainTx "root"])
                              (Ok (Some (mkShardBlock "other" 100 "seed"))) (fun _ => []))
                           false (mkBaseTxInfo 10 [true] addrB) [] []))
             (mkRawTx chainTx "root") [] (mkShardBlock "other" 100 "seed"));
      [reflexivity | reflexivity | discriminate].
Defined.

(* ------------------------------------------------------------------ *)
(** ** Which emulated transactions [computeFinalData] accepts *)

(** X7. [computeFinalData] succeeds exactly when the snapshot and the
    transaction decode, the transaction has an in-message that is either
    internal or external-in without a source address, and its description
    is generic. So an external-in message carrying an external source
    address is rejected ("Invalid src address"), and an external-out
    in-message always is ("Invalid dest address"). *)
Theorem computeFinalData_accepts `{E : Env} res b0 :
  is_ok (computeFinalData res b0) = true <->
  exists sa etx m cp ap,
    loadShardAccount (res_shardAccount res) = Ok sa /\
    loadTransaction (res_transaction res) = Ok etx /\
    inMessage etx = Some m /\
    in_message_accepted (info m) = true /\
    description etx = DescrGeneric cp ap.
Proof.
  unfold computeFinalData. split.
  - destruct (loadShardAccount (res_shardAccount res)) as [sa |]; simpl; [| discriminate].
    destruct (loadTransaction (res_transaction res)) as [etx |]; simpl; [| discriminate].
    destruct (inMessage etx) as [m |] eqn:Hm; [| discriminate].
    destruct (description etx) as [cp ap | ty] eqn:Hd.
    + intros H. exists sa, etx, m, cp, ap.
      split; [reflexivity |]. split; [reflexivity |]. split; [exact Hm |].
      split; [| exact Hd].
      destruct (info m) as [bo src dst v | [src |] dst | src [dst |]]; simpl in *;
        try reflexivity; discriminate.
    + destruct (info m) as [bo src dst v | [src |] dst | src [dst |]]; simpl; discriminate.
  - intros (sa & etx & m & cp & ap & Hsa & Htx & Hm & Hacc & Hd).
    rewrite Hsa, Htx. simpl. rewrite Hm, Hd.
    destruct (info m) as [bo src dst v | [src |] dst | src [dst |]]; simpl in *;
      try reflexivity; discriminate.
Qed.

(** X8. The addresses of a successful [computeFinalData]: the contract is
    an internal address, the sender is absent or an internal address, and
    the amount is given exactly for an internal in-message, as its
    coins. *)
Theorem computeFinalData_addresses `{E : Env} res b0 fd :
  computeFinalData res b0 = Ok fd ->
  exists m,
    inMessage (fd_emulatedTx fd) = Some m /\
    (exists a, fd_contract fd = AnyAddr a /\ info_dest (info m) = Some (AnyAddr a)) /\
    (fd_sender fd = None \/ exists a, fd_sender fd = Some (AnyAddr a)) /\
    fd_amount fd = internal_coins m.
Proof.
  unfold computeFinalData. intros H.
  destruct (loadShardAccount (res_shardAccount res)) as [sa |]; simpl in H; [| discriminate].
  destruct (loadTransaction (res_transaction res)) as [etx |]; simpl in H; [| discriminate].
  destruct (inMessage etx) as [m |] eqn:Hm; [| discriminate].
  destruct (description etx) as [cp ap | ty].
  - exists m.
    destruct (info m) as [bo src dst v | [src |] dst | src [dst |]] eqn:Hi; simpl in H;
      try discriminate; injection H as <-; simpl; rewrite Hm;
      (split; [reflexivity |]); unfold internal_coins; rewrite Hi;
      (split; [eexists; split; reflexivity |]); split; try reflexivity;
      first [right; eexists; reflexivity | left; reflexivity].
  - destruct (info m) as [bo src dst v | [src |] dst | src [dst |]]; simpl in H; discriminate.
Qed.

Lemma computeFinalData_addresses_witness :
  exists fd,
    @computeFinalData demoEnv (mkEmulationResultSuccess "emutx9" "snap2" "" None) 1000 = Ok fd /\
    exists m,
      inMessage (fd_emulatedTx fd) = Some m /\
      (exists a, fd_contract fd = AnyAddr a /\ info_dest (info m) = Some (AnyAddr a)) /\
      (fd_sender fd = None \/ exists a, fd_sender fd = Some (AnyAddr a)) /\
      fd_amount fd = internal_coins m.
Proof.
  eexists. split.
  - vm_compute. reflexivity.
  - apply (@computeFinalData_addresses demoEnv (mkEmulationResultSuccess "emutx9" "snap2" "" None)
             1000).
    vm_compute. reflexivity.
Defined.

(* ------------------------------------------------------------------ *)
(** ** What [retrace] returns after its retries *)

Lemma tryLoadAsLibrary_outcome `{E : Env} boc testnet tr :
  fst (tryLoadAsLibrary boc testnet tr) = fst (tryLoadAsLibrary boc testnet []).
Proof.
  rewrite !tryLoadAsLibrary_eq. destruct (Cell_fromHex boc) as [c | m]; [| reflexivity].
  destruct (_ && _); [| reflexivity].
  unfold mbind, m_bind. rewrite !getLibraryByHash_run.
  destruct (match getLibraryByHashToncenter testnet _ with
            | Ok c => Ok c | Throw _ => getLibraryByHashDton testnet _ end); reflexivity.
Qed.

(** X9. A report [retrace] returns never shows a failure it could have
    repaired: when its compute phase ended with exit code 9 and the VM log
    ends with the missing-library pattern whose stack top is a cell, that
    cell is not an exotic library reference ([tryLoadAsLibrary] finds no
    library in it, whatever it is asked from), whatever number of retries
    came before. *)
Theorem retrace_result_not_repairable `{E : Env} fuel testnet txLink additionalLibs tr r tr' :
  retrace fuel testnet txLink additionalLibs tr = (Ok r, tr') ->
  forall success vmSteps gasUsed gasFees stack boc,
    computeInfo (emulatedTx r) = CIVm success 9 vmSteps gasUsed gasFees ->
    libraryStackLine (logs_parse (vmLogs (emulatedTx r))) = Some stack ->
    at_neg 1 stack = Some (StackCell boc) ->
    forall tr0, fst (tryLoadAsLibrary boc testnet tr0) = Ok None.
Proof.
  revert additionalLibs tr. induction fuel as [| fuel IH]; intros addl tr H; [discriminate |].
  cbn [retrace] in H. rewrite bind_emit in H.
  apply bind_inv in H as (bt & tr1 & Hb & H). apply lift_inv in Hb as [Hb ->].
  destruct bt as [baseTx |]; [| discriminate].
  apply bind_inv in H as (res & tr2 & Hres & H).
  intros success vmSteps gasUsed gasFees stack boc Hci Hls Htop tr0.
  destruct (computeInfo (emulatedTx res)) as [| s0 e0 v0 g0 f0] eqn:Hci0.
  - unfold mret, m_ret in H. injection H as <- <-. congruence.
  - destruct (Z.eqb e0 0) eqn:He0.
    + unfold mret, m_ret in H. injection H as <- <-. apply Z.eqb_eq in He0. congruence.
    + destruct (Z.eqb e0 9) eqn:He9;
        [| unfold mret, m_ret in H; injection H as <- <-; apply Z.eqb_neq in He9; congruence].
      destruct (libraryStackLine (logs_parse (vmLogs (emulatedTx res)))) as [st |] eqn:Hls0;
        [| unfold mret, m_ret in H; injection H as <- <-; congruence].
      destruct (at_neg 1 st) as [[bc | z | t] |] eqn:Htop0;
        try (unfold mret, m_ret in H; injection H as <- <-; congruence).
      apply bind_inv in H as (lr & tr3 & Htl & H).
      destruct lr as [[h c] |].
      * exact (IH _ _ H success vmSteps gasUsed gasFees stack boc Hci Hls Htop tr0).
      * unfold mret, m_ret in H. injection H as <- <-.
        rewrite Hls0 in Hls. injection Hls as ->. rewrite Htop0 in Htop. injection Htop as ->.
        rewrite tryLoadAsLibrary_outcome, <- (tryLoadAsLibrary_outcome boc testnet tr2), Htl.
        reflexivity.
Qed.

Lemma retrace_result_not_repairable_witness :
  exists r tr',
    @retrace plainTopEnv 1 false "tx9" [] [] = (Ok r, tr') /\
    forall tr0, fst (@tryLoadAsLibrary plainTopEnv "B5EE_PLAIN" false tr0) = Ok None.
Proof.
  do 2 eexists. split.
  - vm_compute. reflexivity.
  - apply (@retrace_result_not_repairable plainTopEnv 1 false "tx9" [] [] _ _ ltac:(vm_compute; reflexivity)
             false 12 500 5000 [StackInt 1; StackCell "B5EE_PLAIN"] "B5EE_PLAIN");
      vm_compute; reflexivity.
Defined.
